(** * Sale Squid: the analysis pipeline of [src/App.tsx]

    The component keeps five pieces of React state ([reviews], [isAnalyzing],
    [result], [error], [language]) and drives one asynchronous call to a
    generative model.  This development embeds the non-visual logic of that
    component:

    - JavaScript strings as sequences of UTF-16 code units, with [trim] and
      [split(/\s+/)] as ECMAScript defines them;
    - [JSON.parse] as a total tokenizer and pushdown parser, numbers being
      binary64 floats;
    - the strength scorer, the prompt template and the response schema;
    - [analyzeReviews], cut at its single [await] into the synchronous prefix
      and the continuation that runs when the call settles;
    - the three entry paths ([handlePaste], the example button, the
      generate button) and the rendered annual-increment estimate. *)

From Stdlib Require Import String Ascii ZArith NArith List Bool Lia Floats.
From Stdlib Require QArith DecimalString.
Import ListNotations.

#[global] Set Warnings "-register-all".

(** ** JavaScript strings *)

Module Js.

(** A JavaScript string is a sequence of 16-bit code units. *)
Definition jsstring := list N.

(** A source literal that only holds ASCII characters. *)
Definition lit (s : string) : jsstring :=
  map N_of_ascii (list_ascii_of_string s).

(** The double quote, which the literals of this file never contain. *)
Definition dquote : jsstring := [34%N].

(** Line feed: the template literal of the prompt spans several lines. *)
Definition nl : jsstring := [10%N].

(** ECMAScript [WhiteSpace] and [LineTerminator] code points: what both
    [String.prototype.trim] and the regular expression class [\s] match. *)
Definition is_ws (c : N) : bool :=
  ((c =? 0x09) || (c =? 0x0A) || (c =? 0x0B) || (c =? 0x0C) || (c =? 0x0D)
   || (c =? 0x20) || (c =? 0xA0) || (c =? 0x1680)
   || ((0x2000 <=? c) && (c <=? 0x200A))
   || (c =? 0x2028) || (c =? 0x2029) || (c =? 0x202F) || (c =? 0x205F)
   || (c =? 0x3000) || (c =? 0xFEFF))%N.

Fixpoint trimStart (s : jsstring) : jsstring :=
  match s with
  | [] => []
  | c :: s' => if is_ws c then trimStart s' else s
  end.

Definition trimEnd (s : jsstring) : jsstring := rev (trimStart (rev s)).

(** [s.trim()] *)
Definition trim (s : jsstring) : jsstring := trimEnd (trimStart s).

(** ToBoolean on a string: only the empty string is falsy. *)
Definition truthy (s : jsstring) : bool :=
  match s with [] => false | _ :: _ => true end.

(** [s.split(/\s+/)].  The separator never matches the empty string, so the
    scan of ECMAScript's [Symbol.split] goes left to right: at a white-space
    unit outside a separator the substring collected so far is pushed (it
    is empty when the string starts with white space) and the whole run of
    white space is skipped; at the end the remaining substring is pushed,
    also when it is empty.  The scan is either inside a separator ([None])
    or collecting a substring, held in reverse ([Some cur]). *)
Fixpoint split_scan (st : option jsstring) (s : jsstring) : list jsstring :=
  match s with
  | [] => [match st with Some cur => rev cur | None => [] end]
  | c :: s' =>
      if is_ws c then
        match st with
        | Some cur => rev cur :: split_scan None s'
        | None => split_scan None s'
        end
      else
        match st with
        | Some cur => split_scan (Some (c :: cur)) s'
        | None => split_scan (Some [c]) s'
        end
  end.

Definition split_ws (s : jsstring) : list jsstring := split_scan (Some []) s.

(** [needle] occurs in [hay] as a contiguous substring. *)
Definition occurs_in (needle hay : jsstring) : Prop :=
  exists pre post, hay = pre ++ needle ++ post.

End Js.
Import Js.

(** ** Strength scorer ([reviewStrength], lines 53-60) *)

Module Scorer.

Record ReviewStrength := {
  label : string;
  color : string;
  width : string
}.

(** [w => w.length > 0] *)
Definition nonempty (w : jsstring) : bool := (0 <? length w)%nat.

(** [reviews.trim().split(/\s+/).filter(w => w.length > 0).length] *)
Definition words (reviews : jsstring) : nat :=
  length (filter nonempty (split_ws (trim reviews))).

Definition reviewStrength (reviews : jsstring) : ReviewStrength :=
  let words := words reviews in
  if (words =? 0)%nat then
    {| label := "Empty"; color := "bg-slate-200"; width := "0%" |}
  else if (words <? 10)%nat then
    {| label := "Weak"; color := "bg-red-400"; width := "25%" |}
  else if (words <? 30)%nat then
    {| label := "Fair"; color := "bg-amber-400"; width := "50%" |}
  else if (words <? 60)%nat then
    {| label := "Good"; color := "bg-indigo-400"; width := "75%" |}
  else
    {| label := "Excellent"; color := "bg-emerald-500"; width := "100%" |}.

(** The specification's count: the number of maximal runs of units that
    are not white space.  A run starts at a unit that is not white space
    and follows white space or the start of the text; [after_ws] records
    which. *)
Fixpoint token_starts (after_ws : bool) (s : jsstring) : nat :=
  match s with
  | [] => 0
  | c :: s' =>
      if is_ws c then token_starts true s'
      else (if after_ws then 1 else 0) + token_starts false s'
  end.

Definition count_tokens (s : jsstring) : nat := token_starts true s.

(** [k] copies of a one-letter word, each followed by a blank. *)
Fixpoint sample_words (k : nat) : jsstring :=
  match k with
  | O => []
  | S k' => 0x77%N :: 0x20%N :: sample_words k'
  end.

End Scorer.

(** ** [JSON.parse] *)

Module Json.

(** The values [JSON.parse] can return.  An object keeps its members in
    the order of their first occurrence in the text, and a repeated key
    overwrites.  The order in which JavaScript enumerates the members
    (integer-like keys first) is not modelled: members are only ever looked
    up by key here. *)
Inductive json :=
| JNull
| JBool (b : bool)
| JNum (x : float)
| JStr (s : jsstring)
| JArr (items : list json)
| JObj (members : list (jsstring * json)).

Fixpoint str_eqb (a b : jsstring) : bool :=
  match a, b with
  | [], [] => true
  | x :: a', y :: b' => (x =? y)%N && str_eqb a' b'
  | _, _ => false
  end.

Fixpoint set_member (k : jsstring) (v : json)
         (ms : list (jsstring * json)) : list (jsstring * json) :=
  match ms with
  | [] => [(k, v)]
  | (k', v') :: ms' =>
      if str_eqb k k' then (k, v) :: ms' else (k', v') :: set_member k v ms'
  end.

Fixpoint lookup (k : jsstring) (ms : list (jsstring * json)) : option json :=
  match ms with
  | [] => None
  | (k', v) :: ms' => if str_eqb k k' then Some v else lookup k ms'
  end.

(** [v.k] for an own data property of a parsed value; [None] is
    [undefined]. *)
Definition get (k : jsstring) (v : json) : option json :=
  match v with
  | JObj ms => lookup k ms
  | _ => None
  end.

(** *** Numbers

    The Number value of a decimal literal [(-1)^neg * m * 10^e]: the
    binary64 float nearest to it, ties to even, infinite past the range. *)
Definition dec2float (neg : bool) (m : Z) (e : Z) : float :=
  match m with
  | Zpos p =>
      if (0 <=? e)%Z then
        SF2Prim (binary_normalize prec emax
                   (if neg then Z.opp (m * 10 ^ e) else (m * 10 ^ e))%Z 0%Z false)
      else
        match (10 ^ (- e))%Z with
        | Zpos d =>
            SF2Prim (SFdiv prec emax (S754_finite neg p 0) (S754_finite false d 0))
        | _ => nan
        end
  | _ => if neg then neg_zero else PrimFloat.zero
  end.

(** *** Tokens *)

Inductive token :=
| TLBrace | TRBrace | TLBracket | TRBracket | TColon | TComma
| TAtom (v : json).

(** Where the scan stands inside a number literal. *)
Inductive numstate :=
| NMinus | NZero | NInt | NDot | NFrac | NExp | NExpSign | NExpDigits.

Record numacc := {
  neg : bool;        (* a leading minus sign *)
  mant : Z;          (* the digits of the integer and fraction parts *)
  fracdigits : Z;    (* how many of them follow the point *)
  eneg : bool;       (* the exponent's sign *)
  expo : Z           (* the exponent's digits *)
}.

Definition number_value (a : numacc) : float :=
  dec2float (neg a) (mant a)
            ((if eneg a then - expo a else expo a) - fracdigits a)%Z.

Inductive lexmode :=
| LIdle
| LStr (acc : jsstring)
| LEsc (acc : jsstring)
| LHex (acc : jsstring) (remaining : nat) (value : N)
| LNum (st : numstate) (a : numacc)
| LLit (rest : jsstring) (v : json).

Definition is_json_ws (c : N) : bool :=
  ((c =? 0x20) || (c =? 0x09) || (c =? 0x0A) || (c =? 0x0D))%N.

Definition digit_of (c : N) : option Z :=
  if ((0x30 <=? c) && (c <=? 0x39))%N then Some (Z.of_N (c - 0x30)) else None.

Definition hex_of (c : N) : option N :=
  if ((0x30 <=? c) && (c <=? 0x39))%N then Some (c - 0x30)%N
  else if ((0x41 <=? c) && (c <=? 0x46))%N then Some (c - 0x41 + 10)%N
  else if ((0x61 <=? c) && (c <=? 0x66))%N then Some (c - 0x61 + 10)%N
  else None.

Definition num0 (sign : bool) (d : Z) : numacc :=
  {| neg := sign; mant := d; fracdigits := 0; eneg := false; expo := 0 |}.

Definition idle_step (c : N) : option (list token * lexmode) :=
  if is_json_ws c then Some ([], LIdle)
  else if (c =? 0x7B)%N then Some ([TLBrace], LIdle)
  else if (c =? 0x7D)%N then Some ([TRBrace], LIdle)
  else if (c =? 0x5B)%N then Some ([TLBracket], LIdle)
  else if (c =? 0x5D)%N then Some ([TRBracket], LIdle)
  else if (c =? 0x3A)%N then Some ([TColon], LIdle)
  else if (c =? 0x2C)%N then Some ([TComma], LIdle)
  else if (c =? 0x22)%N then Some ([], LStr [])
  else if (c =? 0x2D)%N then Some ([], LNum NMinus (num0 true 0))
  else if (c =? 0x30)%N then Some ([], LNum NZero (num0 false 0))
  else if (c =? 0x74)%N then Some ([], LLit (lit "rue") (JBool true))
  else if (c =? 0x66)%N then Some ([], LLit (lit "alse") (JBool false))
  else if (c =? 0x6E)%N then Some ([], LLit (lit "ull") JNull)
  else match digit_of c with
       | Some d => Some ([], LNum NInt (num0 false d))
       | None => None
       end.

(** The literal is over: its token, then the unit that ended it. *)
Definition finish_number (a : numacc) (c : N) : option (list token * lexmode) :=
  match idle_step c with
  | Some (ts, m) => Some (TAtom (JNum (number_value a)) :: ts, m)
  | None => None
  end.

Definition push_digit (a : numacc) (d : Z) (frac : bool) : numacc :=
  {| neg := neg a; mant := (mant a * 10 + d)%Z;
     fracdigits := if frac then (fracdigits a + 1)%Z else fracdigits a;
     eneg := eneg a; expo := expo a |}.

Definition push_exp (a : numacc) (d : Z) : numacc :=
  {| neg := neg a; mant := mant a; fracdigits := fracdigits a;
     eneg := eneg a; expo := (expo a * 10 + d)%Z |}.

Definition set_eneg (a : numacc) : numacc :=
  {| neg := neg a; mant := mant a; fracdigits := fracdigits a;
     eneg := true; expo := expo a |}.

Definition is_e (c : N) : bool := ((c =? 0x65) || (c =? 0x45))%N.

Definition num_step (st : numstate) (a : numacc) (c : N)
  : option (list token * lexmode) :=
  match st, digit_of c with
  | NMinus, Some d =>
      if (d =? 0)%Z then Some ([], LNum NZero a)
      else Some ([], LNum NInt (push_digit a d false))
  | NMinus, None => None
  | NZero, _ =>
      if (c =? 0x2E)%N then Some ([], LNum NDot a)
      else if is_e c then Some ([], LNum NExp a)
      else finish_number a c
  | NInt, Some d => Some ([], LNum NInt (push_digit a d false))
  | NInt, None =>
      if (c =? 0x2E)%N then Some ([], LNum NDot a)
      else if is_e c then Some ([], LNum NExp a)
      else finish_number a c
  | NDot, Some d => Some ([], LNum NFrac (push_digit a d true))
  | NDot, None => None
  | NFrac, Some d => Some ([], LNum NFrac (push_digit a d true))
  | NFrac, None =>
      if is_e c then Some ([], LNum NExp a) else finish_number a c
  | NExp, Some d => Some ([], LNum NExpDigits (push_exp a d))
  | NExp, None =>
      if (c =? 0x2B)%N then Some ([], LNum NExpSign a)
      else if (c =? 0x2D)%N then Some ([], LNum NExpSign (set_eneg a))
      else None
  | NExpSign, Some d => Some ([], LNum NExpDigits (push_exp a d))
  | NExpSign, None => None
  | NExpDigits, Some d => Some ([], LNum NExpDigits (push_exp a d))
  | NExpDigits, None => finish_number a c
  end.

Definition esc_step (acc : jsstring) (c : N) : option (list token * lexmode) :=
  if (c =? 0x22)%N then Some ([], LStr (0x22%N :: acc))
  else if (c =? 0x5C)%N then Some ([], LStr (0x5C%N :: acc))
  else if (c =? 0x2F)%N then Some ([], LStr (0x2F%N :: acc))
  else if (c =? 0x62)%N then Some ([], LStr (0x08%N :: acc))
  else if (c =? 0x66)%N then Some ([], LStr (0x0C%N :: acc))
  else if (c =? 0x6E)%N then Some ([], LStr (0x0A%N :: acc))
  else if (c =? 0x72)%N then Some ([], LStr (0x0D%N :: acc))
  else if (c =? 0x74)%N then Some ([], LStr (0x09%N :: acc))
  else if (c =? 0x75)%N then Some ([], LHex acc 4 0%N)
  else None.

Definition lex_step (m : lexmode) (c : N) : option (list token * lexmode) :=
  match m with
  | LIdle => idle_step c
  | LStr acc =>
      if (c =? 0x22)%N then Some ([TAtom (JStr (rev acc))], LIdle)
      else if (c =? 0x5C)%N then Some ([], LEsc acc)
      else if (c <? 0x20)%N then None
      else Some ([], LStr (c :: acc))
  | LEsc acc => esc_step acc c
  | LHex acc k v =>
      match hex_of c, k with
      | Some d, S O => Some ([], LStr ((v * 16 + d)%N :: acc))
      | Some d, S k' => Some ([], LHex acc k' (v * 16 + d)%N)
      | _, _ => None
      end
  | LNum st a => num_step st a c
  | LLit rest v =>
      match rest with
      | [d] => if (c =? d)%N then Some ([TAtom v], LIdle) else None
      | d :: rest' => if (c =? d)%N then Some ([], LLit rest' v) else None
      | [] => None
      end
  end.

Definition lex_end (m : lexmode) : option (list token) :=
  match m with
  | LIdle => Some []
  | LNum (NZero | NInt | NFrac | NExpDigits) a =>
      Some [TAtom (JNum (number_value a))]
  | _ => None
  end.

Fixpoint lex (m : lexmode) (s : jsstring) : option (list token) :=
  match s with
  | [] => lex_end m
  | c :: s' =>
      match lex_step m c with
      | None => None
      | Some (ts, m') =>
          match lex m' s' with
          | None => None
          | Some rest => Some (ts ++ rest)
          end
      end
  end.

(** *** The pushdown parser over tokens *)

(** An enclosing array (its items so far, last first) or object (its
    members so far and the key whose value is being read). *)
Inductive frame :=
| FArr (items : list json)
| FObj (members : list (jsstring * json)) (key : jsstring).

Inductive pstate :=
| PValue (stack : list frame)
| PArrStart (stack : list frame)
| PObjStart (stack : list frame)
| PObjKey (members : list (jsstring * json)) (stack : list frame)
| PObjColon (members : list (jsstring * json)) (key : jsstring)
            (stack : list frame)
| PArrNext (items : list json) (stack : list frame)
| PObjNext (members : list (jsstring * json)) (stack : list frame)
| PDone (v : json).

(** A value is complete: hand it to the enclosing frame. *)
Definition reduce (v : json) (stack : list frame) : pstate :=
  match stack with
  | [] => PDone v
  | FArr items :: st => PArrNext (v :: items) st
  | FObj members key :: st => PObjNext (set_member key v members) st
  end.

Definition value_step (stack : list frame) (t : token) : option pstate :=
  match t with
  | TAtom v => Some (reduce v stack)
  | TLBracket => Some (PArrStart stack)
  | TLBrace => Some (PObjStart stack)
  | _ => None
  end.

Definition parse_step (p : pstate) (t : token) : option pstate :=
  match p, t with
  | PValue st, _ => value_step st t
  | PArrStart st, TRBracket => Some (reduce (JArr []) st)
  | PArrStart st, _ => value_step (FArr [] :: st) t
  | PObjStart st, TRBrace => Some (reduce (JObj []) st)
  | PObjStart st, TAtom (JStr k) => Some (PObjColon [] k st)
  | PObjKey ms st, TAtom (JStr k) => Some (PObjColon ms k st)
  | PObjColon ms k st, TColon => Some (PValue (FObj ms k :: st))
  | PArrNext items st, TComma => Some (PValue (FArr items :: st))
  | PArrNext items st, TRBracket => Some (reduce (JArr (rev items)) st)
  | PObjNext ms st, TComma => Some (PObjKey ms st)
  | PObjNext ms st, TRBrace => Some (reduce (JObj ms) st)
  | _, _ => None
  end.

Fixpoint parse_tokens (p : pstate) (ts : list token) : option json :=
  match ts with
  | [] => match p with PDone v => Some v | _ => None end
  | t :: ts' =>
      match parse_step p t with
      | Some p' => parse_tokens p' ts'
      | None => None
      end
  end.

(** [JSON.parse(text)]: the value, or [None] where it throws a
    [SyntaxError]. *)
Definition JSON_parse (text : jsstring) : option json :=
  match lex LIdle text with
  | Some ts => parse_tokens (PValue []) ts
  | None => None
  end.

(** JSON text written with apostrophes where the text has double quotes. *)
Definition jtext (s : string) : jsstring :=
  map (fun c => if (c =? 0x27)%N then 0x22%N else c) (lit s).

End Json.
Import Json.

(** ** Prompt builder and schema (the argument of [generateContent], lines 70-112) *)

Module Prompt.

Definition prompt_intro : jsstring :=
  lit "Analyze the following customer reviews (Input Language: ".

Definition prompt_task : jsstring :=
  lit ") and provide a comprehensive sales and marketing strategy specifically designed to maximize the company's Annual Sale Growth Rate." ++
  nl ++
  lit "        " ++
  nl ++
  lit "        Reviews:" ++
  nl ++
  lit "        ".

Definition prompt_focus : jsstring :=
  nl ++
  lit "        " ++
  nl ++
  lit "        Focus on:" ++
  nl ++
  lit "        1. Identifying core customer problems (pain points) that are currently capping growth." ++
  nl ++
  lit "        2. Identifying specific " ++
  dquote ++
  lit "Growth Levers" ++
  dquote ++
  lit " - areas where improvements will directly impact the Annual Sale Growth Rate." ++
  nl ++
  lit "        3. Providing actionable marketing and sales solutions to overcome sales blockers." ++
  nl ++
  lit "        4. Creating a professional " ++
  dquote ++
  lit "Strategic Sales Growth Plan" ++
  dquote ++
  lit " structured with pillars like Market Expansion, Sales Enablement, and Customer Lifetime Value (CLV) optimization, including specific quarterly milestones." ++
  nl ++
  lit "        5. Providing a 6-month data projection (current vs projected revenue growth in percentage) showing the acceleration of the growth rate." ++
  nl ++
  lit "        " ++
  nl ++
  lit "        ".

Definition prompt_note : jsstring :=
  lit "Note: If the reviews are in a language other than English, please translate the core insights internally to provide the strategy in English.".

(** The template literal passed as [contents]. *)
Definition buildPrompt (language finalReviews : jsstring) : jsstring :=
  prompt_intro ++ language ++ prompt_task ++ finalReviews
    ++ prompt_focus ++ prompt_note.

(** The [responseSchema] object. *)
Inductive schema :=
| SString (description : option string)
| SNumber (description : option string)
| SArray (items : schema)
| SObject (properties : list (string * schema)) (required : list string).

Definition required_fields : list string :=
  ["painPoints"; "sentiment"; "salesBlockers"; "marketingStrategy";
   "salesStrategy"; "annualIncrementPlan"; "growthProjection"]%string.

Definition responseSchema : schema :=
  SObject
    [("painPoints", SArray (SString None));
     ("sentiment", SString None);
     ("salesBlockers", SArray (SString None));
     ("marketingStrategy", SString None);
     ("salesStrategy", SString None);
     ("annualIncrementPlan",
       SString (Some "Professional Strategic Sales Growth Plan with pillars and milestones"));
     ("growthProjection",
       SArray (SObject
         [("month", SString None);
          ("current", SNumber (Some "Current growth rate %"));
          ("projected", SNumber (Some "Projected growth rate % after strategy"))]
         ["month"; "current"; "projected"]))]%string
    required_fields.

(** One call of [ai.models.generateContent]. *)
Record Request := {
  model : string;
  contents : jsstring;
  responseMimeType : string;
  schema_of : schema
}.

Definition request (language finalReviews : jsstring) : Request :=
  {| model := "gemini-3-flash-preview";
     contents := buildPrompt language finalReviews;
     responseMimeType := "application/json";
     schema_of := responseSchema |}.

End Prompt.
Import Prompt.

(** ** The orchestrator: component state, [analyzeReviews] and the entry paths *)

Module Pipeline.

(** What a [catch] clause can receive here: the [SyntaxError] of
    [JSON.parse], or whatever the generation call was rejected with. *)
Inductive JsError :=
| SyntaxError
| CallError (reason : jsstring).

(** The five [useState] cells (lines 41-45).  [result] is typed
    [AnalysisResult | null], and holds at run time whatever [JSON.parse]
    returned; [JNull] is [null]. *)
Record AppState := {
  reviews : jsstring;
  isAnalyzing : bool;
  result : json;
  error : option jsstring;
  language : jsstring
}.

(** The component state together with what the component did to the
    outside: the generation calls issued so far, oldest first, and the
    lines written by [console.error]. *)
Record World := {
  app : AppState;
  outbound : list Request;
  console : list JsError
}.

Definition initial : World :=
  {| app := {| reviews := []; isAnalyzing := false; result := JNull;
               error := None; language := lit "Auto-detect" |};
     outbound := []; console := [] |}.

Definition update (f : AppState -> AppState) (w : World) : World :=
  {| app := f (app w); outbound := outbound w; console := console w |}.

Definition setReviews (v : jsstring) : World -> World :=
  update (fun s => {| reviews := v; isAnalyzing := isAnalyzing s;
                      result := result s; error := error s;
                      language := language s |}).

Definition setIsAnalyzing (v : bool) : World -> World :=
  update (fun s => {| reviews := reviews s; isAnalyzing := v;
                      result := result s; error := error s;
                      language := language s |}).

Definition setResult (v : json) : World -> World :=
  update (fun s => {| reviews := reviews s; isAnalyzing := isAnalyzing s;
                      result := v; error := error s;
                      language := language s |}).

Definition setError (v : option jsstring) : World -> World :=
  update (fun s => {| reviews := reviews s; isAnalyzing := isAnalyzing s;
                      result := result s; error := v;
                      language := language s |}).

Definition setLanguage (v : jsstring) : World -> World :=
  update (fun s => {| reviews := reviews s; isAnalyzing := isAnalyzing s;
                      result := result s; error := error s;
                      language := v |}).

Definition generateContent (r : Request) (w : World) : World :=
  {| app := app w; outbound := outbound w ++ [r]; console := console w |}.

Definition console_error (e : JsError) (w : World) : World :=
  {| app := app w; outbound := outbound w; console := console w ++ [e] |}.

Definition failure_message : jsstring :=
  lit "Failed to analyze reviews. Please try again.".

(** [textToUse || reviews]: the argument when it is a string that is not
    empty, the textarea contents of the current render otherwise. *)
Definition finalReviews (render : AppState) (textToUse : option jsstring)
  : jsstring :=
  match textToUse with
  | Some t => if truthy t then t else reviews render
  | None => reviews render
  end.

(** [analyzeReviews], lines 62-112: what runs before the [await].  The
    function reads [reviews] and [language] from the render it was created
    in ([render]) and writes through the setters. *)
Definition analyzeReviews (render : AppState) (textToUse : option jsstring)
           (w : World) : World :=
  let finalReviews := finalReviews render textToUse in
  if negb (truthy (trim finalReviews)) then w
  else
    let w := setIsAnalyzing true w in
    let w := setError None w in
    generateContent (request (language render) finalReviews) w.

(** How the awaited call settles: with a response, whose [text] may be
    undefined, or with a rejection. *)
Inductive Settled :=
| Fulfilled (text : option jsstring)
| Rejected (reason : JsError).

(** [response.text || '{}'] *)
Definition body_text (text : option jsstring) : jsstring :=
  match text with
  | Some t => if truthy t then t else lit "{}"
  | None => lit "{}"
  end.

(** [analyzeReviews], lines 114-121: what runs once the call has settled. *)
Definition analyzeReviews_settle (o : Settled) (w : World) : World :=
  let catch err w :=
    let w := console_error err w in
    setError (Some failure_message) w in
  let w :=
    match o with
    | Fulfilled text =>
        match JSON_parse (body_text text) with
        | Some data => setResult data w
        | None => catch SyntaxError w
        end
    | Rejected reason => catch reason w
    end in
  setIsAnalyzing false w.

(** The error the [catch] clause receives when the call settles with
    [o], if it receives one. *)
Definition caught (o : Settled) : option JsError :=
  match o with
  | Fulfilled text =>
      match JSON_parse (body_text text) with
      | Some _ => None
      | None => Some SyntaxError
      end
  | Rejected reason => Some reason
  end.

(** [handlePaste], lines 124-130.  The handler does not prevent the
    browser's own insertion of the clipboard text, which reaches the
    component afterwards as an [onChange] of the textarea: a separate
    [Change] event below. *)
Definition handlePaste (pastedText : jsstring) (w : World) : World :=
  if truthy (trim pastedText) then
    let w' := setReviews pastedText w in
    analyzeReviews (app w) (Some pastedText) w'
  else w.

(** The text of the example button, lines 300-307. *)
Definition example : jsstring :=
  lit "- The checkout process is too long and confusing. I almost gave up." ++
  nl ++
  lit "- I love the product but shipping took 3 weeks without any updates." ++
  nl ++
  lit "- Customer support didn't respond to my email for 4 days." ++
  nl ++
  lit "- The mobile app crashes whenever I try to apply a discount code." ++
  nl ++
  lit "- Prices are a bit higher than competitors, but the quality is better." ++
  nl ++
  lit "- I wish there was a subscription option for recurring orders." ++
  nl ++
  lit "- The website is slow to load on my phone." ++
  nl ++
  lit "- Finding specific items in the search bar is frustratingly difficult.".

(** The example button's [onClick], lines 299-310. *)
Definition clickExample (w : World) : World :=
  let w' := setReviews example w in
  analyzeReviews (app w) (Some example) w'.

(** The generate button, lines 315-317: [disabled] keeps the click from
    reaching [onClick]. *)
Definition generate_disabled (s : AppState) : bool :=
  isAnalyzing s || negb (truthy (trim (reviews s))).

Definition clickGenerate (w : World) : World :=
  if generate_disabled (app w) then w
  else analyzeReviews (app w) None w.

(** What can happen to the component. *)
Inductive Event :=
| Change (value : jsstring)
| SelectLanguage (value : jsstring)
| Paste (pastedText : jsstring)
| ClickExample
| ClickGenerate
| Settle (o : Settled).

Definition step (w : World) (e : Event) : World :=
  match e with
  | Change v => setReviews v w
  | SelectLanguage v => setLanguage v w
  | Paste t => handlePaste t w
  | ClickExample => clickExample w
  | ClickGenerate => clickGenerate w
  | Settle o => analyzeReviews_settle o w
  end.

Definition run (w : World) (es : list Event) : World := fold_left step es w.

(** The text an event submits for analysis, if it submits one: the pasted
    text (line 128), the example (line 309) or, for the generate button,
    the textarea contents ([analyzeReviews()] at line 316, read at line
    63). *)
Definition submitted_text (w : World) (e : Event) : option jsstring :=
  match e with
  | Paste pastedText => Some pastedText
  | ClickExample => Some example
  | ClickGenerate => Some (reviews (app w))
  | _ => None
  end.

(** What holds of every world the component can be in: the error shown is
    the generic message or none, and every call issued was for a text with
    something in it. *)
Definition error_is_generic (w : World) : Prop :=
  error (app w) = None \/ error (app w) = Some failure_message.

Definition call_is_for_text (r : Request) : Prop :=
  exists lang text, r = request lang text /\ truthy (trim text) = true.

Definition invariant (w : World) : Prop :=
  error_is_generic w /\ Forall call_is_for_text (outbound w).

End Pipeline.
Import Pipeline.

(** ** Derived metric: the estimate rendered at line 496 *)

Module Metrics.

Record ProjectionPoint := {
  month : jsstring;
  current : float;
  projected : float
}.

(** The interface [AnalysisResult], lines 30-38. *)
Record AnalysisResult := {
  painPoints : list jsstring;
  sentiment : jsstring;
  salesBlockers : list jsstring;
  marketingStrategy : jsstring;
  salesStrategy : jsstring;
  growthProjection : list ProjectionPoint;
  annualIncrementPlan : jsstring
}.

(** [Math.round]: the integer nearest to [x], the larger one of two
    equally near; NaN, the infinities and the zeros are returned as they
    are, and a negative [x] that rounds to zero gives [-0].  The integer
    is computed exactly from the float's mantissa and exponent. *)
Definition Math_round (x : float) : float :=
  match Prim2SF x with
  | S754_finite s m e =>
      let sm := if s then Zneg m else Zpos m in
      let n := if (0 <=? e)%Z then (sm * 2 ^ e)%Z
               else ((2 * sm + 2 ^ (- e)) / 2 ^ (1 - e))%Z in
      match n with
      | Z0 => if s then neg_zero else PrimFloat.zero
      | _ => SF2Prim (binary_normalize prec emax n 0%Z false)
      end
  | _ => x
  end.

(** What rounding means, stated without [Math_round]: the exact value of a
    finite float with sign [s], mantissa [m] and exponent [e], as a
    rational number, and the integer nearest to a rational, the larger one
    of two that are equally near. *)
Definition signed (s : bool) (m : positive) : Z :=
  if s then Zneg m else Zpos m.

Definition exact_value (s : bool) (m : positive) (e : Z) : QArith_base.Q :=
  if (0 <=? e)%Z then QArith_base.inject_Z (signed s m * 2 ^ e)
  else QArith_base.Qmake (signed s m) (Z.to_pos (2 ^ (- e))).

Definition nearest_ties_up (v : QArith_base.Q) (n : Z) : Prop :=
  QArith_base.Qle
    (QArith_base.Qminus (QArith_base.inject_Z n) (QArith_base.Qmake 1 2)) v /\
  QArith_base.Qlt
    v (QArith_base.Qplus (QArith_base.inject_Z n) (QArith_base.Qmake 1 2)).

(** The float of an integer (the integer itself when it is representable),
    and the float of a rounded value: zero keeps the sign of what was
    rounded. *)
Definition float_of_Z (n : Z) : float :=
  SF2Prim (binary_normalize prec emax n 0%Z false).

Definition rounded (s : bool) (n : Z) : float :=
  match n with
  | Z0 => if s then neg_zero else PrimFloat.zero
  | _ => float_of_Z n
  end.

(** [Math.round((result.growthProjection[5].projected
                 - result.growthProjection[0].current) * 2.5)].
    Reading a property of [undefined] throws a [TypeError]: [None]. *)
Definition annualIncrementEstimate (result : AnalysisResult) : option float :=
  match nth_error (growthProjection result) 5 with
  | None => None
  | Some p5 =>
      match nth_error (growthProjection result) 0 with
      | None => None
      | Some p0 =>
          Some (Math_round ((projected p5 - current p0) * 2.5)%float)
      end
  end.

(** The run-time value of a typed result. *)
Definition encode_strings (l : list jsstring) : json := JArr (map JStr l).

Definition encode_point (p : ProjectionPoint) : json :=
  JObj [(lit "month", JStr (month p)); (lit "current", JNum (current p));
        (lit "projected", JNum (projected p))].

Definition encode (r : AnalysisResult) : json :=
  JObj [(lit "painPoints", encode_strings (painPoints r));
        (lit "sentiment", JStr (sentiment r));
        (lit "salesBlockers", encode_strings (salesBlockers r));
        (lit "marketingStrategy", JStr (marketingStrategy r));
        (lit "salesStrategy", JStr (salesStrategy r));
        (lit "annualIncrementPlan", JStr (annualIncrementPlan r));
        (lit "growthProjection", JArr (map encode_point (growthProjection r)))].

End Metrics.
Import Metrics.

(** ** The validator the specification describes

  The definitions of this module follow the wording of the specification
  (section 4.5), not the component: they say which parsed bodies the
  specification's validator lets through. *)

Module Spec.

Definition has_field (v : json) (name : string) : bool :=
  match get (lit name) v with
  | Some _ => true
  | None => false
  end.

Definition is_number (v : option json) : bool :=
  match v with
  | Some (JNum _) => true
  | _ => false
  end.

(** Both numeric sub-fields of a projection point are present. *)
Definition point_ok (p : json) : bool :=
  is_number (get (lit "current") p) && is_number (get (lit "projected") p).

(** At least 6 entries, each with both numeric sub-fields. *)
Definition projection_ok (v : json) : bool :=
  match get (lit "growthProjection") v with
  | Some (JArr ps) => (6 <=? List.length ps)%nat && forallb point_ok ps
  | _ => false
  end.

(** Every mandatory field is present and the projection is sufficient. *)
Definition spec_accepts (v : json) : bool :=
  forallb (has_field v) required_fields && projection_ok v.

End Spec.
Import Spec.

(** ** Sample data for the concrete runs *)

Module Samples.

Definition point (m : string) (c p : float) : ProjectionPoint :=
  {| month := lit m; current := c; projected := p |}.

(** A result of the documented shape: first [current] 5, sixth
    [projected] 45. *)
Definition sample_result : AnalysisResult :=
  {| painPoints := [lit "slow checkout"; lit "late delivery"];
     sentiment := lit "Mixed";
     salesBlockers := [lit "price"];
     marketingStrategy := lit "Retarget";
     salesStrategy := lit "Bundle";
     growthProjection :=
       [point "Jan" 5 8; point "Feb" 6 12; point "Mar" 7 18;
        point "Apr" 8 25; point "May" 9 34; point "Jun" 10 45];
     annualIncrementPlan := lit "Expand" |}.

(** A result whose first point has [current] [c] and whose sixth point has
    [projected] [p]. *)
Definition result_between (c p : float) : AnalysisResult :=
  {| painPoints := [lit "slow checkout"];
     sentiment := lit "Mixed";
     salesBlockers := [lit "price"];
     marketingStrategy := lit "Retarget";
     salesStrategy := lit "Bundle";
     growthProjection :=
       [point "Jan" c 1; point "Feb" 2 2; point "Mar" 3 3;
        point "Apr" 4 4; point "May" 5 5; point "Jun" 6 p];
     annualIncrementPlan := lit "Expand" |}.

(** The same result as the JSON text of a response. *)
Definition sample_body : jsstring :=
  jtext "{'painPoints':['slow checkout','late delivery'],'sentiment':'Mixed','salesBlockers':['price'],'marketingStrategy':'Retarget','salesStrategy':'Bundle','annualIncrementPlan':'Expand','growthProjection':[{'month':'Jan','current':5,'projected':8},{'month':'Feb','current':6,'projected':12},{'month':'Mar','current':7,'projected':18},{'month':'Apr','current':8,'projected':25},{'month':'May','current':9,'projected':34},{'month':'Jun','current':10,'projected':45}]}".

(** A response with every field and only five projection points. *)
Definition five_points : AnalysisResult :=
  {| painPoints := [lit "slow checkout"];
     sentiment := lit "Mixed";
     salesBlockers := [lit "price"];
     marketingStrategy := lit "Retarget";
     salesStrategy := lit "Bundle";
     growthProjection :=
       [point "Jan" 5 8; point "Feb" 6 12; point "Mar" 7 18;
        point "Apr" 8 25; point "May" 9 34];
     annualIncrementPlan := lit "Expand" |}.

Definition five_points_body : jsstring :=
  jtext "{'painPoints':['slow checkout'],'sentiment':'Mixed','salesBlockers':['price'],'marketingStrategy':'Retarget','salesStrategy':'Bundle','annualIncrementPlan':'Expand','growthProjection':[{'month':'Jan','current':5,'projected':8},{'month':'Feb','current':6,'projected':12},{'month':'Mar','current':7,'projected':18},{'month':'Apr','current':8,'projected':25},{'month':'May','current':9,'projected':34}]}".

(** A response without [salesStrategy]. *)
Definition no_salesStrategy_body : jsstring :=
  jtext "{'painPoints':[],'sentiment':'Mixed','salesBlockers':[],'marketingStrategy':'Retarget','annualIncrementPlan':'Expand','growthProjection':[]}".

End Samples.
Import Samples.

(** ** What the component shows (lines 287, 325, 341, 349) *)

Module View.

(** The words behind the counter of line 287 and the scorer of line 54:
    [reviews.trim().split(/\s+/).filter(w => w.length > 0)]. *)
Definition word_list (reviews : jsstring) : list jsstring :=
  filter Scorer.nonempty (split_ws (trim reviews)).

(** A unit that is not white space. *)
Definition not_ws (c : N) : bool := negb (is_ws c).

(** The substring a scan of [split] is collecting. *)
Definition collected (st : option jsstring) : jsstring :=
  match st with
  | Some cur => rev cur
  | None => []
  end.

(** ToBoolean on a parsed value. *)
Definition to_boolean (v : json) : bool :=
  match v with
  | JNull => false
  | JBool b => b
  | JNum x => negb (PrimFloat.is_nan x || PrimFloat.is_zero x)
  | JStr s => truthy s
  | JArr _ | JObj _ => true
  end.

(** The guard of [{error && (...)}], line 341.  The banner is on screen
    when the guard holds and the render of the whole component completes,
    which it need not when the results section is rendered for a value of
    the wrong shape. *)
Definition error_shown (s : AppState) : bool :=
  match error s with
  | Some message => truthy message
  | None => false
  end.

(** The guard of [{result && (...)}], line 349: whether the results
    section is rendered. *)
Definition results_shown (s : AppState) : bool := to_boolean (result s).

(** [{isAnalyzing ? ... : ...}], line 325: the spinner on the button. *)
Definition spinner_shown (s : AppState) : bool := isAnalyzing s.

(** *** The property reads of line 496

    [result.growthProjection[5].projected] and
    [result.growthProjection[0].current] on the value held in [result],
    which is whatever [JSON.parse] returned. *)

(** A value or [undefined]. *)
Inductive JsValue :=
| Undefined
| Val (v : json).

Definition of_option (o : option json) : JsValue :=
  match o with
  | Some v => Val v
  | None => Undefined
  end.

(** [undefined] or [null]. *)
Definition nullish (v : JsValue) : bool :=
  match v with
  | Undefined | Val JNull => true
  | _ => false
  end.

(** [v.k] for the names the expression uses ([growthProjection],
    [projected], [current]), none of which a prototype provides: [None]
    where the read throws a [TypeError]. *)
Definition read_name (k : jsstring) (v : JsValue) : option JsValue :=
  match v with
  | Undefined | Val JNull => None
  | Val (JObj ms) => Some (of_option (lookup k ms))
  | Val _ => Some Undefined
  end.

(** The property key of an array index: its decimal text. *)
Definition index_key (i : nat) : jsstring :=
  lit (DecimalString.NilEmpty.string_of_uint (Nat.to_uint i)).

(** [v[i]]: an element of an array, a unit of a string, the member of an
    object whose key is the index's text. *)
Definition read_index (i : nat) (v : JsValue) : option JsValue :=
  match v with
  | Undefined | Val JNull => None
  | Val (JArr items) => Some (of_option (nth_error items i))
  | Val (JStr s) =>
      Some (match nth_error s i with
            | Some c => Val (JStr [c])
            | None => Undefined
            end)
  | Val (JObj ms) => Some (of_option (lookup (index_key i) ms))
  | Val _ => Some Undefined
  end.

Definition bind {A B} (o : option A) (f : A -> option B) : option B :=
  match o with
  | Some a => f a
  | None => None
  end.

(** The two operands of the subtraction, left one first; [None] where one
    of the reads throws. *)
Definition estimate_operands (result : json) : option (JsValue * JsValue) :=
  bind (read_name (lit "growthProjection") (Val result)) (fun gp =>
  bind (read_index 5 gp) (fun p5 =>
  bind (read_name (lit "projected") p5) (fun projected =>
  bind (read_name (lit "growthProjection") (Val result)) (fun gp' =>
  bind (read_index 0 gp') (fun p0 =>
  bind (read_name (lit "current") p0) (fun current =>
  Some (projected, current))))))).

End View.
Import View.

(** ** The calls in flight

    Each call of [generateContent] returns a promise, and the continuation
    of [analyzeReviews] runs once for it, when it settles.  The machine
    below keeps, beside the world, the number of calls that were issued and
    have not settled: a [Settle] event can only happen while that number is
    positive. *)

Module Runtime.

Record Machine := {
  world : World;
  pending : nat
}.

Definition start : Machine := {| world := initial; pending := 0 |}.

(** How many calls the event issues. *)
Definition issued (w : World) (e : Event) : nat :=
  List.length (outbound (step w e)) - List.length (outbound w).

Definition machine_step (m : Machine) (e : Event) : option Machine :=
  match e with
  | Settle _ =>
      match pending m with
      | O => None
      | S p => Some {| world := step (world m) e; pending := p |}
      end
  | _ =>
      Some {| world := step (world m) e;
              pending := pending m + issued (world m) e |}
  end.

Fixpoint machine_run (m : Machine) (es : list Event) : option Machine :=
  match es with
  | [] => Some m
  | e :: es' =>
      match machine_step m e with
      | Some m' => machine_run m' es'
      | None => None
      end
  end.

(** The events by which the user asks for an analysis. *)
Definition is_submission (e : Event) : bool :=
  match e with
  | Paste _ | ClickExample | ClickGenerate => true
  | _ => false
  end.

(** The events of a user who submits with the generate button only. *)
Definition button_only (e : Event) : bool :=
  match e with
  | Paste _ | ClickExample => false
  | _ => true
  end.

Definition is_settle (e : Event) : bool :=
  match e with
  | Settle _ => true
  | _ => false
  end.

(** Every call issued is in flight or has settled, and the flag is only set
    while a call is in flight. *)
Definition accounted (settled : nat) (m : Machine) : Prop :=
  List.length (outbound (world m)) = pending m + settled /\
  (isAnalyzing (app (world m)) = true -> 1 <= pending m).

(** The flag says exactly whether a call is in flight, and there is at most
    one. *)
Definition single_flight (m : Machine) : Prop :=
  pending m = if isAnalyzing (app (world m)) then 1 else 0.

(** The spinner and an error are not there together. *)
Definition quiet_while_analyzing (w : World) : Prop :=
  isAnalyzing (app w) = true -> error (app w) = None.

End Runtime.
Import Runtime.

(** * Properties *)

(** ** The scorer counts tokens *)

Section ScorerFacts.
Import Scorer.

Lemma token_starts_app_ws b s c :
  is_ws c = true -> token_starts b (s ++ [c]) = token_starts b s.
Proof.
  intros Hc. revert b.
  induction s as [|d s IH]; intros b; simpl.
  - now rewrite Hc.
  - destruct (is_ws d); now rewrite IH.
Qed.

Lemma token_starts_trimStart s :
  token_starts true (trimStart s) = token_starts true s.
Proof.
  induction s as [|c s IH]; simpl; [reflexivity|].
  destruct (is_ws c) eqn:Hc; [exact IH|].
  simpl. now rewrite Hc.
Qed.

(** Dropping trailing white space, read on the reversed text. *)
Lemma token_starts_rev_trimStart b r :
  token_starts b (rev (trimStart r)) = token_starts b (rev r).
Proof.
  induction r as [|c r IH]; simpl; [reflexivity|].
  destruct (is_ws c) eqn:Hc.
  - rewrite IH. symmetry. now apply token_starts_app_ws.
  - reflexivity.
Qed.

Lemma count_tokens_trim s : count_tokens (trim s) = count_tokens s.
Proof.
  unfold count_tokens, trim, trimEnd.
  rewrite token_starts_rev_trimStart, rev_involutive.
  apply token_starts_trimStart.
Qed.

Lemma nonempty_rev_cons c cur : nonempty (rev (c :: cur)) = true.
Proof.
  unfold nonempty. rewrite length_rev. reflexivity.
Qed.

(** The pieces that [split] yields and that survive the filter are the
    runs still to start, plus the run under collection if there is one. *)
Lemma split_scan_count s : forall st,
  length (filter nonempty (split_scan st s)) =
  match st with
  | Some (_ :: _) => 1 + token_starts false s
  | _ => token_starts true s
  end.
Proof.
  induction s as [|c s IH]; intros st.
  - destruct st as [[|d cur]|]; try reflexivity.
    cbn [split_scan filter]. now rewrite nonempty_rev_cons.
  - cbn [split_scan token_starts]. destruct (is_ws c) eqn:Hc.
    + destruct st as [[|d cur]|].
      * cbn [filter rev nonempty]. simpl. apply (IH None).
      * cbn [filter]. rewrite nonempty_rev_cons. cbn [length].
        now rewrite (IH None).
      * apply (IH None).
    + destruct st as [[|d cur]|]; rewrite IH; reflexivity.
Qed.

Lemma words_count_tokens s : words s = count_tokens s.
Proof.
  unfold words, split_ws.
  rewrite split_scan_count. apply count_tokens_trim.
Qed.

End ScorerFacts.

(** ** C5: the strength scorer *)

Section StrengthThresholds.
Import Scorer.

Local Ltac by_count Hn :=
  unfold reviewStrength; rewrite words_count_tokens;
  repeat match goal with
  | |- context [(?a =? ?b)%nat] =>
      destruct (Nat.eqb_spec a b); [try lia | try lia]
  | |- context [(?a <? ?b)%nat] =>
      destruct (Nat.ltb_spec a b); [try lia | try lia]
  end; try (split; reflexivity); try reflexivity; try lia.

(** C5.  For every text, with [n] the number of white-space separated
    tokens that are not empty, the scorer returns Empty/0% when [n = 0],
    Weak/25% when [1 <= n < 10], Fair/50% when [10 <= n < 30], Good/75%
    when [30 <= n < 60] and Excellent/100% when [60 <= n]; so 9 is Weak,
    10 and 29 are Fair, 30 and 59 are Good and 60 is Excellent. *)
Theorem reviewStrength_thresholds (s : jsstring) :
  let n := count_tokens s in
  let r := reviewStrength s in
  (n = 0 -> label r = "Empty"%string /\ width r = "0%"%string) /\
  (1 <= n < 10 -> label r = "Weak"%string /\ width r = "25%"%string) /\
  (10 <= n < 30 -> label r = "Fair"%string /\ width r = "50%"%string) /\
  (30 <= n < 60 -> label r = "Good"%string /\ width r = "75%"%string) /\
  (60 <= n -> label r = "Excellent"%string /\ width r = "100%"%string) /\
  (n = 9 -> label r = "Weak"%string) /\
  (n = 10 -> label r = "Fair"%string) /\
  (n = 29 -> label r = "Fair"%string) /\
  (n = 30 -> label r = "Good"%string) /\
  (n = 59 -> label r = "Good"%string) /\
  (n = 60 -> label r = "Excellent"%string).
Proof.
  cbv zeta.
  repeat match goal with |- _ /\ _ => split end; intros Hn; by_count Hn.
Qed.

(** The six boundary counts, on texts of that many one-letter words. *)
Lemma reviewStrength_thresholds_witness :
  label (reviewStrength (sample_words 9)) = "Weak"%string /\
  label (reviewStrength (sample_words 10)) = "Fair"%string /\
  label (reviewStrength (sample_words 29)) = "Fair"%string /\
  label (reviewStrength (sample_words 30)) = "Good"%string /\
  label (reviewStrength (sample_words 59)) = "Good"%string /\
  label (reviewStrength (sample_words 60)) = "Excellent"%string /\
  width (reviewStrength []) = "0%"%string.
Proof.
  repeat match goal with |- _ /\ _ => split end.
  - destruct (reviewStrength_thresholds (sample_words 9))
      as (_ & _ & _ & _ & _ & H & _). apply H. reflexivity.
  - destruct (reviewStrength_thresholds (sample_words 10))
      as (_ & _ & _ & _ & _ & _ & H & _). apply H. reflexivity.
  - destruct (reviewStrength_thresholds (sample_words 29))
      as (_ & _ & _ & _ & _ & _ & _ & H & _). apply H. reflexivity.
  - destruct (reviewStrength_thresholds (sample_words 30))
      as (_ & _ & _ & _ & _ & _ & _ & _ & H & _). apply H. reflexivity.
  - destruct (reviewStrength_thresholds (sample_words 59))
      as (_ & _ & _ & _ & _ & _ & _ & _ & _ & H & _). apply H. reflexivity.
  - destruct (reviewStrength_thresholds (sample_words 60))
      as (_ & _ & _ & _ & _ & _ & _ & _ & _ & _ & H). apply H. reflexivity.
  - destruct (reviewStrength_thresholds []) as (H & _). apply H. reflexivity.
Defined.

End StrengthThresholds.



(** ** Facts about [analyzeReviews] shared by the claims below *)

Section SubmissionFacts.

Lemma trim_nil : trim [] = [].
Proof. reflexivity. Qed.

(** A text with something left after trimming is not the empty string. *)
Lemma truthy_of_trim t : truthy (trim t) = true -> truthy t = true.
Proof.
  destruct t; [rewrite trim_nil; discriminate | reflexivity].
Qed.

Lemma finalReviews_truthy render t :
  truthy t = true -> finalReviews render (Some t) = t.
Proof.
  intros H. unfold finalReviews. now rewrite H.
Qed.

(** A submission whose effective text is blank returns at line 64. *)
Lemma analyzeReviews_blank render arg w :
  truthy (trim (finalReviews render arg)) = false ->
  analyzeReviews render arg w = w.
Proof.
  intros H. unfold analyzeReviews. now rewrite H.
Qed.

(** Any other submission sets the flag, clears the error and issues one
    call, and leaves everything else alone. *)
Lemma analyzeReviews_accepted render arg w :
  truthy (trim (finalReviews render arg)) = true ->
  analyzeReviews render arg w =
  {| app := {| reviews := reviews (app w); isAnalyzing := true;
               result := result (app w); error := None;
               language := language (app w) |};
     outbound := outbound w
                 ++ [request (language render) (finalReviews render arg)];
     console := console w |}.
Proof.
  intros H. unfold analyzeReviews. now rewrite H.
Qed.

(** A paste that is not blank: the handler stores the text and submits it. *)
Lemma handlePaste_accepted text w :
  truthy (trim text) = true ->
  handlePaste text w =
  {| app := {| reviews := text; isAnalyzing := true;
               result := result (app w); error := None;
               language := language (app w) |};
     outbound := outbound w ++ [request (language (app w)) text];
     console := console w |}.
Proof.
  intros H. unfold handlePaste. rewrite H.
  assert (Hfinal : finalReviews (app w) (Some text) = text)
    by (apply finalReviews_truthy, truthy_of_trim, H).
  rewrite analyzeReviews_accepted by (rewrite Hfinal; exact H).
  rewrite Hfinal. reflexivity.
Qed.

(** What the continuation does when the [catch] clause runs. *)
Lemma settle_caught o e w :
  caught o = Some e ->
  analyzeReviews_settle o w =
  {| app := {| reviews := reviews (app w); isAnalyzing := false;
               result := result (app w); error := Some failure_message;
               language := language (app w) |};
     outbound := outbound w;
     console := console w ++ [e] |}.
Proof.
  unfold caught, analyzeReviews_settle.
  destruct o as [text|reason].
  - destruct (JSON_parse (body_text text)); [discriminate|].
    intros [= <-]. reflexivity.
  - intros [= <-]. reflexivity.
Qed.

(** What it does when the body parses. *)
Lemma settle_parsed text data w :
  JSON_parse (body_text text) = Some data ->
  analyzeReviews_settle (Fulfilled text) w =
  {| app := {| reviews := reviews (app w); isAnalyzing := false;
               result := data; error := error (app w);
               language := language (app w) |};
     outbound := outbound w;
     console := console w |}.
Proof.
  intros H. unfold analyzeReviews_settle. rewrite H. reflexivity.
Qed.

(** The two ways a call of [analyzeReviews] can go. *)
Lemma analyzeReviews_cases render arg w :
  analyzeReviews render arg w = w \/
  (truthy (trim (finalReviews render arg)) = true /\
   analyzeReviews render arg w =
   {| app := {| reviews := reviews (app w); isAnalyzing := true;
                result := result (app w); error := None;
                language := language (app w) |};
      outbound := outbound w
                  ++ [request (language render) (finalReviews render arg)];
      console := console w |}).
Proof.
  destruct (truthy (trim (finalReviews render arg))) eqn:H.
  - right. split; [reflexivity | now apply analyzeReviews_accepted].
  - left. now apply analyzeReviews_blank.
Qed.

End SubmissionFacts.

(** ** Invariants of the reachable worlds *)

Section Reachable.

Create HintDb pipeline.

Lemma invariant_initial : invariant initial.
Proof.
  split; [left; reflexivity | constructor].
Qed.

Lemma invariant_update f w :
  (error (f (app w)) = error (app w)) ->
  invariant w -> invariant (update f w).
Proof.
  intros He [Herr Hcalls]. split; [|exact Hcalls].
  unfold error_is_generic, update in *. cbn [app]. now rewrite He.
Qed.

Lemma invariant_analyzeReviews render arg w :
  invariant w -> invariant (analyzeReviews render arg w).
Proof.
  intros [Herr Hcalls].
  destruct (analyzeReviews_cases render arg w) as [-> | [Ht ->]].
  - now split.
  - split; [left; reflexivity|]. cbn [outbound].
    apply Forall_app. split; [exact Hcalls|].
    constructor; [|constructor].
    exists (language render), (finalReviews render arg). now split.
Qed.

Lemma invariant_settle o w :
  invariant w -> invariant (analyzeReviews_settle o w).
Proof.
  intros [Herr Hcalls].
  destruct (caught o) as [e|] eqn:Hc.
  - rewrite (settle_caught o e w Hc). split; [right; reflexivity | exact Hcalls].
  - destruct o as [text|reason]; [|discriminate].
    unfold caught in Hc.
    destruct (JSON_parse (body_text text)) as [data|] eqn:Hp; [|discriminate].
    unfold analyzeReviews_settle. rewrite Hp. split; [exact Herr | exact Hcalls].
Qed.

Hint Resolve invariant_initial invariant_analyzeReviews invariant_settle
  : pipeline.

Lemma invariant_step w e : invariant w -> invariant (step w e).
Proof.
  intros Hw. destruct e as [v|v|t| | |o]; cbn [step].
  - now apply invariant_update.
  - now apply invariant_update.
  - unfold handlePaste. destruct (truthy (trim t)); [|exact Hw].
    cbv zeta.
    destruct (invariant_analyzeReviews (app w) (Some t) (setReviews t w))
      as [Herr Hcalls]; [now apply invariant_update|].
    split; assumption.
  - unfold clickExample. cbv zeta.
    apply invariant_analyzeReviews. now apply invariant_update.
  - unfold clickGenerate. destruct (generate_disabled (app w));
      auto with pipeline.
  - auto with pipeline.
Qed.

(** Whatever the user does and however the calls settle, the error shown is
    the generic message or none, and no call is issued for a blank text. *)
Lemma invariant_run es : forall w, invariant w -> invariant (run w es).
Proof.
  induction es as [|e es IH]; intros w Hw; [exact Hw|].
  cbn [run fold_left]. apply IH. now apply invariant_step.
Qed.

(** X17.  In every state the component can reach from its initial state,
    the stored error is either none or the one generic message, and every
    call issued so far was built by the prompt template for a text that is
    not blank. *)
Corollary reachable_invariant es : invariant (run initial es).
Proof.
  apply invariant_run, invariant_initial.
Qed.

End Reachable.

(** ** C8: the prompt *)

Section PromptFacts.

(** C8.  The prompt is a function of the language and the review text
    alone; it contains the review text as it is, it states the input
    language between [(Input Language: ] and [)] (which is [Auto-detect]
    until the user selects one), and it carries the note that tells the
    model to translate reviews written in another language internally and
    to give the strategy in English.  The call sends this prompt. *)
Theorem buildPrompt_contents (language text : jsstring) :
  occurs_in text (buildPrompt language text) /\
  occurs_in (lit "(Input Language: " ++ language ++ lit ")")
            (buildPrompt language text) /\
  occurs_in (lit "Note: If the reviews are in a language other than English, please translate the core insights internally to provide the strategy in English.")
            (buildPrompt language text) /\
  contents (request language text) = buildPrompt language text /\
  Pipeline.language (app initial) = lit "Auto-detect".
Proof.
  repeat match goal with |- _ /\ _ => split end.
  - exists (prompt_intro ++ language ++ prompt_task), (prompt_focus ++ prompt_note).
    unfold buildPrompt. now rewrite <- !app_assoc.
  - exists (lit "Analyze the following customer reviews "),
           (tl prompt_task ++ text ++ prompt_focus ++ prompt_note).
    unfold buildPrompt.
    change prompt_intro
      with (lit "Analyze the following customer reviews " ++ lit "(Input Language: ").
    change prompt_task with (lit ")" ++ tl prompt_task).
    now rewrite <- !app_assoc.
  - exists (prompt_intro ++ language ++ prompt_task ++ text ++ prompt_focus), [].
    unfold buildPrompt. rewrite app_nil_r. now rewrite <- !app_assoc.
  - reflexivity.
  - reflexivity.
Qed.

End PromptFacts.

(** ** C9 and C4: which text a submission analyses, and when it is ignored *)

Section EffectiveText.

(** C9.  An explicit argument that is the empty string is treated as no
    argument at all: the submission analyses the textarea contents (and
    issues the call for them when they are not blank); the argument is the
    text analysed exactly when it is a string that is not empty. *)
Theorem empty_argument_falls_back (render : AppState) (w : World) :
  analyzeReviews render (Some []) w = analyzeReviews render None w /\
  finalReviews render (Some []) = reviews render /\
  finalReviews render None = reviews render /\
  (forall t, t <> [] -> finalReviews render (Some t) = t) /\
  (truthy (trim (reviews render)) = true ->
   outbound (analyzeReviews render (Some []) w) =
   outbound w ++ [request (language render) (reviews render)] /\
   isAnalyzing (app (analyzeReviews render (Some []) w)) = true).
Proof.
  repeat match goal with |- _ /\ _ => split end; try reflexivity.
  - intros [|c t] Ht; [congruence | reflexivity].
  - intros H.
    rewrite (analyzeReviews_accepted render (Some []) w H).
    split; reflexivity.
Qed.

(** With [good] in the textarea, [analyzeReviews("")] analyses [good]. *)
Lemma empty_argument_falls_back_witness :
  let w := setReviews (lit "good") initial in
  outbound (analyzeReviews (app w) (Some []) w) =
  [request (lit "Auto-detect") (lit "good")] /\
  isAnalyzing (app (analyzeReviews (app w) (Some []) w)) = true.
Proof.
  cbv zeta.
  destruct (empty_argument_falls_back
              (app (setReviews (lit "good") initial))
              (setReviews (lit "good") initial)) as (_ & _ & _ & _ & H).
  apply H. reflexivity.
Defined.

(** C4.  A text that is empty or only white space is never submitted,
    whichever way it arrives: a paste of such a text, and a click on the
    generate button over a textarea that holds such a text, leave the world
    as it was, so no call is made and flag, result and error are unchanged
    (the example button's text is not blank).  Inside [analyzeReviews] the
    same holds whenever the text it is about to analyse is blank. *)
Theorem blank_text_never_submitted (w : World) (e : Event) (text : jsstring)
        (Hsubmits : submitted_text w e = Some text)
        (Hblank : truthy (trim text) = false) :
  step w e = w /\
  outbound (step w e) = outbound w /\
  isAnalyzing (app (step w e)) = isAnalyzing (app w) /\
  result (app (step w e)) = result (app w) /\
  error (app (step w e)) = error (app w) /\
  (forall render arg,
     truthy (trim (finalReviews render arg)) = false ->
     analyzeReviews render arg w = w).
Proof.
  assert (Hstep : step w e = w).
  { destruct e as [v|v|t| | |o]; try discriminate; cbn [step];
      injection Hsubmits as <-.
    - unfold handlePaste. now rewrite Hblank.
    - discriminate.
    - unfold clickGenerate, generate_disabled.
      rewrite Hblank. now rewrite orb_true_r. }
  rewrite Hstep. repeat match goal with |- _ /\ _ => split end;
    try reflexivity.
  intros render arg H. now apply analyzeReviews_blank.
Qed.

(** Three blanks pasted over [great product], and the generate button over
    a textarea that holds a tab and a line feed. *)
Lemma blank_text_never_submitted_witness :
  let w := setReviews (lit "great product") initial in
  let w' := setReviews [0x09; 0x0A]%N initial in
  step w (Paste (lit "   ")) = w /\ step w' ClickGenerate = w'.
Proof.
  cbv zeta. split.
  - destruct (blank_text_never_submitted
                (setReviews (lit "great product") initial)
                (Paste (lit "   ")) (lit "   ") eq_refl eq_refl) as [H _].
    exact H.
  - destruct (blank_text_never_submitted
                (setReviews [0x09; 0x0A]%N initial)
                ClickGenerate [0x09; 0x0A]%N eq_refl eq_refl) as [H _].
    exact H.
Defined.

End EffectiveText.

(** ** C10: pasting *)

Section PasteFacts.

(** C10.  A paste whose text is not blank stores the pasted text as the
    input and at once submits exactly that text, whatever the textarea
    held before: one call is issued for it, the flag is set and the error
    cleared.  A paste whose text is blank changes nothing. *)
Theorem handlePaste_submits_pasted_text (pastedText : jsstring) (w : World) :
  (truthy (trim pastedText) = true ->
   let w' := handlePaste pastedText w in
   reviews (app w') = pastedText /\
   outbound w' = outbound w ++ [request (language (app w)) pastedText] /\
   isAnalyzing (app w') = true /\
   error (app w') = None /\
   result (app w') = result (app w)) /\
  (truthy (trim pastedText) = false -> handlePaste pastedText w = w).
Proof.
  split; intros H.
  - cbv zeta. rewrite (handlePaste_accepted pastedText w H). repeat split.
  - unfold handlePaste. now rewrite H.
Qed.

(** Pasting [late delivery] over [old text], and pasting two blanks. *)
Lemma handlePaste_submits_pasted_text_witness :
  let w := setReviews (lit "old text") initial in
  outbound (handlePaste (lit "late delivery") w) =
  [request (lit "Auto-detect") (lit "late delivery")] /\
  reviews (app (handlePaste (lit "late delivery") w)) = lit "late delivery" /\
  handlePaste (lit "  ") w = w.
Proof.
  cbv zeta.
  destruct (handlePaste_submits_pasted_text (lit "late delivery")
              (setReviews (lit "old text") initial)) as [Hyes _].
  destruct (handlePaste_submits_pasted_text (lit "  ")
              (setReviews (lit "old text") initial)) as [_ Hno].
  specialize (Hyes eq_refl). cbv zeta in Hyes.
  destruct Hyes as (Hr & Ho & _).
  repeat match goal with |- _ /\ _ => split end.
  - exact Ho.
  - exact Hr.
  - apply Hno. reflexivity.
Defined.

End PasteFacts.


(** ** [JSON.parse] on sample texts *)

Section ParserExamples.

Example parse_empty_object : JSON_parse (lit "{}") = Some (JObj []).
Proof. reflexivity. Qed.

Example parse_sample_body : JSON_parse sample_body = Some (encode sample_result).
Proof. reflexivity. Qed.

Example parse_five_points_body :
  JSON_parse five_points_body = Some (encode five_points).
Proof. reflexivity. Qed.

Example parse_nested :
  JSON_parse (jtext " [ [ ] , { 'k' : [ { } , null , true ] } , -2.5e1 ] ") =
  Some (JArr [JArr []; JObj [(lit "k", JArr [JObj []; JNull; JBool true])];
              JNum (-25)]).
Proof. reflexivity. Qed.

Example parse_repeated_key :
  JSON_parse (jtext "{'a':1,'b':2,'a':3}") =
  Some (JObj [(lit "a", JNum 3); (lit "b", JNum 2)]).
Proof. reflexivity. Qed.

Example parse_escapes :
  JSON_parse (jtext "'xA\n\/\u00e9\uD83D'") =
  Some (JStr [0x78; 0x41; 0x0A; 0x2F; 0xE9; 0xD83D]%N).
Proof. reflexivity. Qed.

Example parse_rejects :
  map JSON_parse
      [lit "Sorry, I cannot help with that."; []; lit "{"; lit "[1,]";
       lit "01"; lit "1."; lit "-"; lit "nul"; lit "[1 2]"; lit "{1:2}";
       jtext "{'a':1,}"; jtext "{'a' 1}"; jtext "'a\x'"; jtext "'open";
       lit "{} {}"] =
  repeat None 15.
Proof. reflexivity. Qed.

End ParserExamples.

(** ** C7: failures *)

Section FailureFacts.

(** C7, as the specification states it, fails for a malformed response.
    A body that parses and lacks [salesStrategy], and one with five
    projection points, are malformed for the specification's validator; the
    component takes each as a success: the [catch] clause does not run, no
    error is stored and nothing is written to the console. *)
Lemma malformed_response_not_failed_counterexample :
  let w := run initial [Paste (lit "slow shipping")] in
  let w1 := step w (Settle (Fulfilled (Some no_salesStrategy_body))) in
  let w2 := step w (Settle (Fulfilled (Some five_points_body))) in
  (has_field (result (app w1)) "salesStrategy" = false /\
   spec_accepts (result (app w1)) = false /\
   caught (Fulfilled (Some no_salesStrategy_body)) = None /\
   error (app w1) = None /\ console w1 = []) /\
  (spec_accepts (result (app w2)) = false /\
   caught (Fulfilled (Some five_points_body)) = None /\
   error (app w2) = None /\ console w2 = []).
Proof.
  cbv zeta. repeat split.
Qed.

(** C7, amended.  Whenever the call is rejected or the body is not JSON,
    the continuation stores the one generic message (the same in both
    cases), writes the underlying error to the console, and resets the
    analyzing flag; after that a submission of a text that is not blank is
    accepted again, by paste or by the generate button: the flag is set,
    the error is cleared and the call is issued. *)
Theorem failure_is_generic_and_recoverable (w : World) (o : Settled)
        (e : JsError) (Hfail : caught o = Some e) :
  let w' := analyzeReviews_settle o w in
  error (app w') = Some (lit "Failed to analyze reviews. Please try again.") /\
  isAnalyzing (app w') = false /\
  console w' = console w ++ [e] /\
  (forall text, truthy (trim text) = true ->
     let w'' := handlePaste text w' in
     isAnalyzing (app w'') = true /\
     error (app w'') = None /\
     outbound w'' = outbound w' ++ [request (language (app w')) text]) /\
  (truthy (trim (reviews (app w))) = true ->
     let w'' := clickGenerate w' in
     isAnalyzing (app w'') = true /\
     error (app w'') = None /\
     outbound w'' =
     outbound w' ++ [request (language (app w')) (reviews (app w'))]).
Proof.
  cbv zeta. rewrite (settle_caught o e w Hfail). cbn [app error isAnalyzing console outbound language reviews].
  repeat match goal with |- _ /\ _ => split end; try reflexivity.
  - intros text Ht. rewrite (handlePaste_accepted text _ Ht). repeat split.
  - intros Hr. unfold clickGenerate, generate_disabled.
    cbn [app isAnalyzing reviews]. rewrite Hr. cbn [negb orb].
    rewrite analyzeReviews_accepted by exact Hr.
    repeat split.
Qed.

(** A rejected call and a body that is no JSON, each followed by a paste. *)
Lemma failure_is_generic_and_recoverable_witness :
  let w := run initial [Paste (lit "slow shipping")] in
  let rejected := analyzeReviews_settle (Rejected (CallError (lit "quota"))) w in
  let garbled := analyzeReviews_settle (Fulfilled (Some (lit "Sorry"))) w in
  error (app rejected) = error (app garbled) /\
  console rejected = [CallError (lit "quota")] /\
  console garbled = [SyntaxError] /\
  isAnalyzing (app (handlePaste (lit "rude support") rejected)) = true /\
  error (app (handlePaste (lit "rude support") garbled)) = None.
Proof.
  cbv zeta.
  pose proof (failure_is_generic_and_recoverable
                (run initial [Paste (lit "slow shipping")])
                (Rejected (CallError (lit "quota")))
                (CallError (lit "quota")) eq_refl) as Hr.
  pose proof (failure_is_generic_and_recoverable
                (run initial [Paste (lit "slow shipping")])
                (Fulfilled (Some (lit "Sorry")))
                SyntaxError eq_refl) as Hg.
  cbv zeta in Hr, Hg.
  destruct Hr as (Hr1 & _ & Hr3 & Hr4 & _).
  destruct Hg as (Hg1 & _ & Hg3 & Hg4 & _).
  repeat match goal with |- _ /\ _ => split end.
  - rewrite Hr1, Hg1. reflexivity.
  - exact Hr3.
  - exact Hg3.
  - apply (Hr4 (lit "rude support") eq_refl).
  - apply (Hg4 (lit "rude support") eq_refl).
Defined.

End FailureFacts.

(** ** C2: submissions while a call is in flight *)

Section SingleFlight.

(** The generate button cannot start a second call: it is disabled while
    the flag is set. *)
Lemma clickGenerate_ignored_while_analyzing w :
  isAnalyzing (app w) = true -> clickGenerate w = w.
Proof.
  intros H. unfold clickGenerate, generate_disabled. now rewrite H.
Qed.

(** The paste handler and the example button have no such guard: whatever
    the flag says, a paste that is not blank issues one more call. *)
Lemma handlePaste_ignores_flag text w :
  truthy (trim text) = true ->
  List.length (outbound (handlePaste text w)) = S (List.length (outbound w)).
Proof.
  intros H. rewrite (handlePaste_accepted text w H). cbn [outbound].
  rewrite length_app. simpl. lia.
Qed.

(** C2, on the code.  While the call for [slow shipping] is in flight, a
    paste of [rude support] replaces the input and issues a second call,
    and so does the example button; only the generate button is inert.
    When the first call then settles the flag is reset although the
    second call is still in flight. *)
Lemma second_submission_while_analyzing :
  let w1 := run initial [Paste (lit "slow shipping")] in
  let w2 := step w1 (Paste (lit "rude support")) in
  let w3 := step w2 (Settle (Fulfilled (Some sample_body))) in
  isAnalyzing (app w1) = true /\
  outbound w1 = [request (lit "Auto-detect") (lit "slow shipping")] /\
  outbound w2 = [request (lit "Auto-detect") (lit "slow shipping");
                 request (lit "Auto-detect") (lit "rude support")] /\
  reviews (app w2) = lit "rude support" /\
  outbound (step w1 ClickExample) =
    [request (lit "Auto-detect") (lit "slow shipping");
     request (lit "Auto-detect") example] /\
  step w1 ClickGenerate = w1 /\
  isAnalyzing (app w3) = false.
Proof.
  cbv zeta. repeat split.
Qed.

End SingleFlight.

(** ** C3: what is kept when a submission starts and when it fails *)

Section Retention.

(** C3, as the specification states it, fails.  After a successful
    analysis, the next accepted submission enters Analyzing with the old
    result still in place, and when that submission fails the old result
    stays beside the error. *)
Lemma result_kept_beside_error_counterexample :
  let w1 := run initial [Paste (lit "slow shipping");
                         Settle (Fulfilled (Some sample_body))] in
  let w2 := step w1 ClickGenerate in
  let w3 := step w2 (Settle (Rejected (CallError (lit "quota")))) in
  result (app w1) = encode sample_result /\
  isAnalyzing (app w2) = true /\
  result (app w2) = encode sample_result /\
  isAnalyzing (app w3) = false /\
  error (app w3) = Some failure_message /\
  result (app w3) = encode sample_result.
Proof.
  cbv zeta. repeat split.
Qed.

(** C3, amended.  An accepted submission clears the previous error at
    once and keeps the previous result while it is analyzing; when the
    response parses, the parsed value replaces the result; when the call
    or the parse fails, the error is set and the result is left as it
    was. *)
Theorem submission_clears_error_keeps_result (render : AppState)
        (arg : option jsstring) (w : World)
        (Haccepted : truthy (trim (finalReviews render arg)) = true) :
  let w' := analyzeReviews render arg w in
  isAnalyzing (app w') = true /\
  error (app w') = None /\
  result (app w') = result (app w) /\
  (forall text data, JSON_parse (body_text text) = Some data ->
     result (app (analyzeReviews_settle (Fulfilled text) w')) = data /\
     error (app (analyzeReviews_settle (Fulfilled text) w')) = None) /\
  (forall o e, caught o = Some e ->
     result (app (analyzeReviews_settle o w')) = result (app w) /\
     error (app (analyzeReviews_settle o w')) = Some failure_message).
Proof.
  cbv zeta. rewrite (analyzeReviews_accepted render arg w Haccepted).
  repeat match goal with |- _ /\ _ => split end; try reflexivity.
  - intros text data H. rewrite (settle_parsed text data _ H).
    split; reflexivity.
  - intros o e H. rewrite (settle_caught o e _ H). split; reflexivity.
Qed.

(** The generate button over [slow shipping], after a failed analysis. *)
Lemma submission_clears_error_keeps_result_witness :
  let w := run initial [Paste (lit "slow shipping");
                        Settle (Fulfilled (Some sample_body));
                        Paste (lit "rude support");
                        Settle (Rejected (CallError (lit "quota")))] in
  error (app w) = Some failure_message /\
  error (app (analyzeReviews (app w) None w)) = None /\
  result (app (analyzeReviews (app w) None w)) = encode sample_result.
Proof.
  cbv zeta.
  pose proof (submission_clears_error_keeps_result
    (app (run initial [Paste (lit "slow shipping");
                       Settle (Fulfilled (Some sample_body));
                       Paste (lit "rude support");
                       Settle (Rejected (CallError (lit "quota")))]))
    None
    (run initial [Paste (lit "slow shipping");
                  Settle (Fulfilled (Some sample_body));
                  Paste (lit "rude support");
                  Settle (Rejected (CallError (lit "quota")))])
    eq_refl) as H.
  cbv zeta in H. destruct H as (_ & He & Hr & _).
  repeat match goal with |- _ /\ _ => split end.
  - reflexivity.
  - exact He.
  - rewrite Hr. reflexivity.
Defined.

End Retention.

(** ** C1: what the response handler accepts *)

Section Acceptance.

(** C1, as the specification states it, fails.  A response without a body
    is read as the empty object, which has none of the seven fields; a
    body with every field and five projection points, and a body without
    [salesStrategy], are no better for the specification's validator.  The
    component stores each of them as the result and reports no error. *)
Lemma unvalidated_body_counterexample :
  let w := run initial [Paste (lit "slow shipping")] in
  let w1 := step w (Settle (Fulfilled None)) in
  let w2 := step w (Settle (Fulfilled (Some five_points_body))) in
  let w3 := step w (Settle (Fulfilled (Some no_salesStrategy_body))) in
  (spec_accepts (JObj []) = false /\
   forallb (fun f => negb (has_field (JObj []) f)) required_fields = true /\
   result (app w1) = JObj [] /\
   error (app w1) = None /\ isAnalyzing (app w1) = false) /\
  (spec_accepts (encode five_points) = false /\
   forallb (has_field (encode five_points)) required_fields = true /\
   result (app w2) = encode five_points /\
   error (app w2) = None /\ isAnalyzing (app w2) = false) /\
  (has_field (result (app w3)) "salesStrategy" = false /\
   spec_accepts (result (app w3)) = false /\
   error (app w3) = None /\ isAnalyzing (app w3) = false).
Proof.
  cbv zeta. repeat split.
Qed.

(** C1, amended.  The handler checks no field.  When the body (the empty
    object's text if the response has no text) is JSON, the parsed value
    becomes the result, whatever it holds, and no error is reported; the
    handler fails, with the generic message, exactly when the body is not
    JSON.  Either way the analyzing flag is reset. *)
Theorem settle_accepts_any_json (w : World) (text : option jsstring) :
  let w' := analyzeReviews_settle (Fulfilled text) w in
  (forall data, JSON_parse (body_text text) = Some data ->
     result (app w') = data /\
     error (app w') = error (app w) /\
     console w' = console w) /\
  (JSON_parse (body_text text) = None ->
     error (app w') = Some failure_message /\
     result (app w') = result (app w) /\
     console w' = console w ++ [SyntaxError]) /\
  isAnalyzing (app w') = false /\
  body_text None = lit "{}" /\
  body_text (Some []) = lit "{}".
Proof.
  cbv zeta.
  repeat match goal with |- _ /\ _ => split end; try reflexivity.
  - intros data H. rewrite (settle_parsed text data w H). repeat split.
  - intros H.
    rewrite (settle_caught (Fulfilled text) SyntaxError w)
      by (unfold caught; now rewrite H).
    repeat split.
Qed.

(** A body that is JSON of the wrong shape, and a body that is no JSON. *)
Lemma settle_accepts_any_json_witness :
  let w := run initial [Paste (lit "slow shipping")] in
  result (app (analyzeReviews_settle (Fulfilled (Some (lit "[1,2]"))) w)) =
    JArr [JNum 1; JNum 2] /\
  error (app (analyzeReviews_settle (Fulfilled (Some (lit "[1,2]"))) w)) = None /\
  error (app (analyzeReviews_settle (Fulfilled (Some (lit "[1,2"))) w)) =
    Some failure_message.
Proof.
  cbv zeta.
  destruct (settle_accepts_any_json
              (run initial [Paste (lit "slow shipping")])
              (Some (lit "[1,2]"))) as (Hok & _).
  destruct (settle_accepts_any_json
              (run initial [Paste (lit "slow shipping")])
              (Some (lit "[1,2"))) as (_ & Hbad & _).
  destruct (Hok (JArr [JNum 1; JNum 2]) eq_refl) as (Hr & He & _).
  destruct (Hbad eq_refl) as (Hm & _).
  repeat match goal with |- _ /\ _ => split end.
  - exact Hr.
  - rewrite He. reflexivity.
  - exact Hm.
Defined.

End Acceptance.

(** ** C6: the annual increment estimate *)

Section Estimate.

(** Without a sixth point the expression throws. *)
Lemma annualIncrementEstimate_short r :
  List.length (growthProjection r) < 6 -> annualIncrementEstimate r = None.
Proof.
  intros H. unfold annualIncrementEstimate.
  destruct (nth_error (growthProjection r) 5) eqn:E; [|reflexivity].
  assert (nth_error (growthProjection r) 5 <> None) as Hn by congruence.
  apply nth_error_Some in Hn. lia.
Qed.

(** [float_of_Z] is the conversion of the machine: on a 63-bit integer it
    gives the float the primitive conversion gives. *)
Lemma float_of_Z_of_uint63 n :
  float_of_Z (Uint63Axioms.to_Z n) = PrimFloat.of_uint63 n.
Proof.
  unfold float_of_Z. rewrite <- FloatAxioms.of_uint63_spec.
  apply FloatAxioms.SF2Prim_Prim2SF.
Qed.

(** [Math.round] picks the integer nearest to the exact value of its
    argument, the larger one of two equally near; what is not a finite
    number other than zero is returned as it is. *)
Lemma Math_round_nearest (x : float) :
  match Prim2SF x with
  | S754_finite s m e =>
      exists n, nearest_ties_up (exact_value s m e) n /\
                Math_round x = rounded s n
  | _ => Math_round x = x
  end.
Proof.
  unfold Math_round.
  destruct (Prim2SF x) as [s0| s0| |s m e]; try reflexivity.
  cbv zeta. fold (signed s m).
  destruct (Z.leb_spec 0 e) as [He|He].
  - exists (signed s m * 2 ^ e)%Z. split; [|reflexivity].
    unfold nearest_ties_up, exact_value.
    destruct (Z.leb_spec 0 e) as [_|Hlt]; [|lia].
    unfold QArith_base.Qle, QArith_base.Qlt, QArith_base.Qminus,
      QArith_base.Qplus, QArith_base.Qopp, QArith_base.inject_Z.
    cbn [QArith_base.Qnum QArith_base.Qden Pos.mul]. lia.
  - exists ((2 * signed s m + 2 ^ (- e)) / 2 ^ (1 - e))%Z.
    split; [|reflexivity].
    unfold nearest_ties_up, exact_value.
    destruct (Z.leb_spec 0 e) as [Hge|_]; [lia|].
    assert (HD : (0 < 2 ^ (- e))%Z) by (apply Z.pow_pos_nonneg; lia).
    assert (H2D : (2 ^ (1 - e) = 2 * 2 ^ (- e))%Z).
    { replace (1 - e)%Z with (Z.succ (- e)) by lia.
      apply Z.pow_succ_r. lia. }
    rewrite H2D.
    set (D := (2 ^ (- e))%Z) in *.
    set (sm := signed s m).
    pose proof (Z.mul_div_le (2 * sm + D) (2 * D) ltac:(lia)) as Hlo.
    pose proof (Z.mul_succ_div_gt (2 * sm + D) (2 * D) ltac:(lia)) as Hhi.
    set (n := ((2 * sm + D) / (2 * D))%Z) in *.
    unfold QArith_base.Qle, QArith_base.Qlt, QArith_base.Qminus,
      QArith_base.Qplus, QArith_base.Qopp, QArith_base.inject_Z.
    cbn [QArith_base.Qnum QArith_base.Qden Pos.mul].
    rewrite Z2Pos.id by exact HD.
    split; nia.
Qed.

(** C6.  For every result with at least six projection points the
    estimate is defined and equals [Math.round] of the sixth point's
    [projected] minus the first point's [current], times 2.5.  The
    rounding is to the integer nearest to the exact value of that product,
    the larger one of two equally near: with 5 and 45 the estimate is 100,
    with 5 and 8 the product 7.5 gives 8, and with 8 and 5 the product -7.5
    gives -7. *)
Theorem annualIncrementEstimate_formula (r : AnalysisResult)
        (Hsix : 6 <= List.length (growthProjection r)) :
  exists p0 p5,
    nth_error (growthProjection r) 0 = Some p0 /\
    nth_error (growthProjection r) 5 = Some p5 /\
    annualIncrementEstimate r =
      Some (Math_round ((projected p5 - current p0) * 2.5)%float) /\
    match Prim2SF ((projected p5 - current p0) * 2.5)%float with
    | S754_finite s m e =>
        exists n, nearest_ties_up (exact_value s m e) n /\
                  annualIncrementEstimate r = Some (rounded s n)
    | _ =>
        annualIncrementEstimate r =
          Some ((projected p5 - current p0) * 2.5)%float
    end /\
    (current p0 = 5%float -> projected p5 = 45%float ->
     annualIncrementEstimate r = Some 100%float) /\
    (current p0 = 5%float -> projected p5 = 8%float ->
     annualIncrementEstimate r = Some 8%float) /\
    (current p0 = 8%float -> projected p5 = 5%float ->
     annualIncrementEstimate r = Some (-7)%float).
Proof.
  destruct (nth_error (growthProjection r) 0) as [p0|] eqn:E0.
  2:{ apply nth_error_None in E0. lia. }
  destruct (nth_error (growthProjection r) 5) as [p5|] eqn:E5.
  2:{ apply nth_error_None in E5. lia. }
  exists p0, p5.
  assert (Hest : annualIncrementEstimate r =
                 Some (Math_round ((projected p5 - current p0) * 2.5)%float)).
  { unfold annualIncrementEstimate. rewrite E5, E0. reflexivity. }
  repeat match goal with |- _ /\ _ => split end; try reflexivity.
  - exact Hest.
  - pose proof (Math_round_nearest ((projected p5 - current p0) * 2.5)%float)
      as Hn.
    destruct (Prim2SF ((projected p5 - current p0) * 2.5)%float)
      as [s0| s0| |s m e].
    + now rewrite Hest, Hn.
    + now rewrite Hest, Hn.
    + now rewrite Hest, Hn.
    + destruct Hn as (n & Hnear & Hr). exists n. split; [exact Hnear|].
      now rewrite Hest, Hr.
  - intros Hc Hp. rewrite Hest, Hc, Hp. reflexivity.
  - intros Hc Hp. rewrite Hest, Hc, Hp. reflexivity.
  - intros Hc Hp. rewrite Hest, Hc, Hp. reflexivity.
Qed.

(** The sample result (5 and 45), and results where the product is not an
    integer: 7.5 and -7.5 (ties), 7.8125 and -0.3125. *)
Lemma annualIncrementEstimate_formula_witness :
  annualIncrementEstimate sample_result = Some 100%float /\
  annualIncrementEstimate (result_between 5 8) = Some 8%float /\
  annualIncrementEstimate (result_between 8 5) = Some (-7)%float /\
  annualIncrementEstimate (result_between 5 8.125) = Some 8%float /\
  annualIncrementEstimate (result_between 5 4.875) = Some (-0)%float.
Proof.
  repeat match goal with |- _ /\ _ => split end.
  - destruct (annualIncrementEstimate_formula sample_result)
      as (p0 & p5 & E0 & E5 & _ & _ & H & _).
    + simpl. lia.
    + injection E0 as <-. injection E5 as <-. apply H; reflexivity.
  - destruct (annualIncrementEstimate_formula (result_between 5 8))
      as (p0 & p5 & E0 & E5 & _ & _ & _ & H & _).
    + simpl. lia.
    + injection E0 as <-. injection E5 as <-. apply H; reflexivity.
  - destruct (annualIncrementEstimate_formula (result_between 8 5))
      as (p0 & p5 & E0 & E5 & _ & _ & _ & _ & H).
    + simpl. lia.
    + injection E0 as <-. injection E5 as <-. apply H; reflexivity.
  - destruct (annualIncrementEstimate_formula (result_between 5 8.125))
      as (p0 & p5 & E0 & E5 & H & _).
    + simpl. lia.
    + injection E0 as <-. injection E5 as <-. rewrite H. reflexivity.
  - destruct (annualIncrementEstimate_formula (result_between 5 4.875))
      as (p0 & p5 & E0 & E5 & H & _).
    + simpl. lia.
    + injection E0 as <-. injection E5 as <-. rewrite H. reflexivity.
Defined.

Example Math_round_samples :
  map Math_round [2.5; -2.5; 0.5; 1.5; -1.5; -7.5; 100; 99.5; 0.25;
                  4503599627370497]%float =
  [3; -2; 1; 2; -1; -7; 100; 100; 0; 4503599627370497]%float.
Proof. reflexivity. Qed.

End Estimate.

(** * Further properties of the component *)

(** ** Blank texts *)

Section Blank.
Import Scorer.

Lemma truthy_false_iff (s : jsstring) : truthy s = false <-> s = [].
Proof.
  destruct s; split; intros H; try reflexivity; discriminate.
Qed.

Lemma trimStart_nil_iff s : trimStart s = [] <-> forallb is_ws s = true.
Proof.
  induction s as [|c s IH]; simpl; [tauto|].
  destruct (is_ws c); simpl; [exact IH|].
  split; discriminate.
Qed.

(** What [trimStart] leaves does not start with white space. *)
Lemma trimStart_head s c t : trimStart s = c :: t -> is_ws c = false.
Proof.
  induction s as [|d s IH]; simpl; [discriminate|].
  destruct (is_ws d) eqn:Hd; [exact IH|].
  intros [= <- <-]. exact Hd.
Qed.

Lemma forallb_rev {A} (f : A -> bool) l : forallb f (rev l) = forallb f l.
Proof.
  induction l as [|x l IH]; simpl; [reflexivity|].
  rewrite forallb_app, IH. simpl. rewrite andb_true_r. apply andb_comm.
Qed.

(** Nothing is left after [trim] exactly when every unit is white space. *)
Lemma blank_iff s : truthy (trim s) = false <-> forallb is_ws s = true.
Proof.
  rewrite truthy_false_iff. unfold trim, trimEnd. split.
  - intros H.
    assert (Hr : trimStart (rev (trimStart s)) = []).
    { apply (f_equal (@rev N)) in H. rewrite rev_involutive in H. exact H. }
    apply trimStart_nil_iff in Hr. rewrite forallb_rev in Hr.
    destruct (trimStart s) as [|c t] eqn:E.
    + now apply trimStart_nil_iff.
    + apply trimStart_head in E. simpl in Hr. rewrite E in Hr. discriminate.
  - intros H. apply trimStart_nil_iff in H. now rewrite H.
Qed.

Lemma token_starts_zero_iff s :
  token_starts true s = 0 <-> forallb is_ws s = true.
Proof.
  induction s as [|c s IH]; simpl; [tauto|].
  destruct (is_ws c); simpl; [exact IH|].
  split; discriminate.
Qed.

Lemma words_zero_iff s : words s = 0 <-> truthy (trim s) = false.
Proof.
  rewrite words_count_tokens, blank_iff. apply token_starts_zero_iff.
Qed.

(** X1.  A submission is ignored exactly when its effective text (the
    argument if it is a string that is not empty, the textarea contents
    otherwise) consists of white-space units only; the empty text is the
    case of no unit at all. *)
Theorem submission_ignored_iff_all_white_space (render : AppState)
        (arg : option jsstring) (w : World) :
  analyzeReviews render arg w = w <->
  forallb is_ws (finalReviews render arg) = true.
Proof.
  rewrite <- blank_iff. split.
  - intros H.
    destruct (truthy (trim (finalReviews render arg))) eqn:Ht; [|reflexivity].
    rewrite (analyzeReviews_accepted render arg w Ht) in H.
    apply (f_equal (fun x => List.length (outbound x))) in H.
    cbn [outbound] in H. rewrite length_app in H. simpl in H. lia.
  - apply analyzeReviews_blank.
Qed.

(** X2.  The strength meter reads Empty exactly when nothing is left of the
    text after trimming, which is exactly when the generate button of an
    idle component is disabled. *)
Theorem empty_strength_iff_button_disabled (s : AppState) :
  (label (reviewStrength (reviews s)) = "Empty"%string <->
   truthy (trim (reviews s)) = false) /\
  (isAnalyzing s = false ->
   (generate_disabled s = true <->
    label (reviewStrength (reviews s)) = "Empty"%string)).
Proof.
  assert (Hlabel : label (reviewStrength (reviews s)) = "Empty"%string <->
                   truthy (trim (reviews s)) = false).
  { rewrite <- words_zero_iff. unfold reviewStrength.
    destruct (Nat.eqb_spec (words (reviews s)) 0) as [E|E].
    - simpl. tauto.
    - split; [|intros H; contradiction].
      destruct (words (reviews s) <? 10); [discriminate|].
      destruct (words (reviews s) <? 30); [discriminate|].
      destruct (words (reviews s) <? 60); discriminate. }
  split; [exact Hlabel|].
  intros Hidle. rewrite Hlabel. unfold generate_disabled. rewrite Hidle.
  simpl. destruct (truthy (trim (reviews s))); simpl; split; congruence.
Qed.

End Blank.

(** ** The words that are counted *)

Section Words.
Import Scorer.

Lemma token_starts_app_sep b s1 c s2 :
  is_ws c = true ->
  token_starts b (s1 ++ c :: s2) = token_starts b s1 + token_starts true s2.
Proof.
  intros Hc. revert b.
  induction s1 as [|d s1 IH]; intros b; simpl.
  - now rewrite Hc.
  - destruct (is_ws d); rewrite IH; lia.
Qed.

Lemma token_starts_lead pre s :
  forallb is_ws pre = true ->
  token_starts true (pre ++ s) = token_starts true s.
Proof.
  induction pre as [|c pre IH]; simpl; [reflexivity|].
  destruct (is_ws c); simpl; [exact IH | discriminate].
Qed.

Lemma token_starts_trail b s post :
  forallb is_ws post = true ->
  token_starts b (s ++ post) = token_starts b s.
Proof.
  revert s. induction post as [|c post IH]; intros s; simpl.
  - now rewrite app_nil_r.
  - destruct (is_ws c) eqn:Hc; simpl; [|discriminate].
    intros H.
    change (s ++ c :: post) with (s ++ [c] ++ post).
    rewrite app_assoc, IH by exact H.
    now apply token_starts_app_ws.
Qed.

Lemma token_starts_bound s :
  2 * token_starts true s <= List.length s + 1 /\
  2 * token_starts false s <= List.length s.
Proof.
  induction s as [|c s [IHt IHf]]; simpl; [lia|].
  destruct (is_ws c); lia.
Qed.

(** X3.  The word count adds up over white space: two texts joined by a
    white-space unit have the words of both; white space before and after a
    text does not change its count; and a text of [n] units has at most
    [(n + 1) / 2] words. *)
Theorem words_compose (a b : jsstring) (c : N) (Hc : is_ws c = true) :
  words (a ++ c :: b) = words a + words b /\
  (forall pre post, forallb is_ws pre = true -> forallb is_ws post = true ->
     words (pre ++ a ++ post) = words a) /\
  2 * words a <= List.length a + 1.
Proof.
  rewrite !words_count_tokens. unfold count_tokens.
  repeat match goal with |- _ /\ _ => split end.
  - now apply token_starts_app_sep.
  - intros pre post Hpre Hpost. rewrite words_count_tokens. unfold count_tokens.
    rewrite token_starts_lead by exact Hpre.
    now apply token_starts_trail.
  - apply token_starts_bound.
Qed.

(** [slow app] and [rude support] joined by a line feed: four words. *)
Lemma words_compose_witness :
  words (lit "slow app" ++ 0x0A%N :: lit "rude support") = 4 /\
  words (lit "  " ++ lit "slow app" ++ lit " ") = 2.
Proof.
  destruct (words_compose (lit "slow app") (lit "rude support") 0x0A%N eq_refl)
    as (Hadd & Hpad & _).
  split.
  - rewrite Hadd. reflexivity.
  - rewrite (Hpad (lit "  ") (lit " ") eq_refl eq_refl). reflexivity.
Defined.

Lemma filter_not_ws_trimStart s :
  filter not_ws (trimStart s) = filter not_ws s.
Proof.
  induction s as [|c s IH]; simpl; [reflexivity|].
  destruct (is_ws c) eqn:Hc; [|reflexivity].
  unfold not_ws at 2. rewrite Hc. simpl. exact IH.
Qed.

Lemma filter_not_ws_trim s : filter not_ws (trim s) = filter not_ws s.
Proof.
  unfold trim, trimEnd.
  rewrite filter_rev, filter_not_ws_trimStart, <- filter_rev, rev_involutive.
  apply filter_not_ws_trimStart.
Qed.

Lemma concat_filter_nonempty (l : list jsstring) :
  concat (filter nonempty l) = concat l.
Proof.
  induction l as [|w l IH]; simpl; [reflexivity|].
  destruct w as [|c w]; simpl; [exact IH|]. now rewrite IH.
Qed.

(** The pieces of a split, put together again, are what was collected
    followed by the rest of the text without its white space. *)
Lemma split_scan_concat s : forall st,
  concat (split_scan st s) = collected st ++ filter not_ws s.
Proof.
  induction s as [|c s IH]; intros st.
  - destruct st; reflexivity.
  - cbn [split_scan filter]. unfold not_ws at 1.
    destruct (is_ws c) eqn:Hc; cbn [negb].
    + destruct st as [cur|]; cbn [concat collected]; rewrite (IH None);
        reflexivity.
    + destruct st as [cur|]; rewrite IH; cbn [collected rev].
      * now rewrite <- app_assoc.
      * reflexivity.
Qed.

(** No piece of a split holds white space, if what was collected holds none. *)
Lemma split_scan_clean s : forall st,
  forallb not_ws (collected st) = true ->
  Forall (fun w => forallb not_ws w = true) (split_scan st s).
Proof.
  induction s as [|c s IH]; intros st Hst.
  - constructor; [|constructor]. destruct st; exact Hst.
  - cbn [split_scan]. destruct (is_ws c) eqn:Hc.
    + destruct st as [cur|].
      * constructor; [exact Hst | now apply (IH None)].
      * now apply (IH None).
    + assert (Hn : not_ws c = true) by (unfold not_ws; now rewrite Hc).
      destruct st as [cur|]; apply IH; cbn [collected rev] in *.
      * rewrite forallb_app, Hst. simpl. now rewrite Hn.
      * simpl. now rewrite Hn.
Qed.

(** X4.  The words that the counter and the scorer count are free of white
    space and not empty, and put together in order they are the text with
    its white space removed: no unit of the text is lost or counted twice. *)
Theorem word_list_partitions_text (s : jsstring) :
  words s = List.length (word_list s) /\
  Forall (fun w => w <> [] /\ forallb not_ws w = true) (word_list s) /\
  concat (word_list s) = filter not_ws s.
Proof.
  unfold word_list. repeat match goal with |- _ /\ _ => split end.
  - reflexivity.
  - apply Forall_forall. intros w Hw. apply filter_In in Hw.
    destruct Hw as [Hin Hne]. split.
    + intros ->. discriminate.
    + assert (Hall := split_scan_clean (trim s) (Some []) eq_refl).
      rewrite Forall_forall in Hall. now apply Hall.
  - rewrite concat_filter_nonempty. unfold split_ws.
    rewrite split_scan_concat. simpl. apply filter_not_ws_trim.
Qed.

End Words.

(** ** The prompt tells texts and languages apart *)

Section PromptInjective.

(** X5.  For a given language two different review texts never give the
    same prompt, and for a given text two different languages never do: the
    prompt determines the text, and it determines the language. *)
Theorem buildPrompt_injective (language language' text text' : jsstring) :
  (buildPrompt language text = buildPrompt language text' -> text = text') /\
  (buildPrompt language text = buildPrompt language' text ->
   language = language').
Proof.
  unfold buildPrompt. split; intros H.
  - apply app_inv_head in H. apply app_inv_head in H.
    apply app_inv_head in H. now apply app_inv_tail in H.
  - apply app_inv_head in H. now apply app_inv_tail in H.
Qed.

End PromptInjective.

(** ** When the estimate can be read *)

Section EstimateDomain.

Lemma read_growthProjection_encode r :
  read_name (lit "growthProjection") (Val (encode r)) =
  Some (Val (JArr (map encode_point (growthProjection r)))).
Proof. reflexivity. Qed.

Lemma read_point_encode (o : option ProjectionPoint) :
  read_name (lit "projected") (of_option (option_map encode_point o)) =
    option_map (fun p => Val (JNum (projected p))) o /\
  read_name (lit "current") (of_option (option_map encode_point o)) =
    option_map (fun p => Val (JNum (current p))) o.
Proof.
  destruct o as [p|]; split; reflexivity.
Qed.

(** On the run-time value of a typed result the reads deliver the sixth
    point's [projected] and the first point's [current], or throw. *)
Lemma estimate_operands_encode r :
  estimate_operands (encode r) =
  match nth_error (growthProjection r) 5, nth_error (growthProjection r) 0 with
  | Some p5, Some p0 =>
      Some (Val (JNum (projected p5)), Val (JNum (current p0)))
  | _, _ => None
  end.
Proof.
  unfold estimate_operands.
  rewrite read_growthProjection_encode. cbn [bind read_index].
  rewrite !nth_error_map.
  destruct (read_point_encode (nth_error (growthProjection r) 5)) as [H5 _].
  destruct (read_point_encode (nth_error (growthProjection r) 0)) as [_ H0].
  rewrite H5, H0.
  destruct (nth_error (growthProjection r) 5);
    destruct (nth_error (growthProjection r) 0); reflexivity.
Qed.

(** X6.  The reads of the estimate's two operands at line 496 run on the
    value held in [result] as it was parsed.  They throw when that value
    has no [growthProjection] or a [null] one; when [growthProjection] is
    an array they throw exactly when its entry 5 or its entry 0 is missing
    or [null], so six [null] points throw although six points are there.
    On the run-time value of a typed result this is exactly the case of
    fewer than six points, which is when the typed estimate is undefined;
    otherwise the operands read are the sixth point's [projected] and the
    first point's [current] and nothing else of the result. *)
Theorem estimate_reads_domain (r : AnalysisResult) (v : json)
        (items : list json) :
  (nullish (of_option (get (lit "growthProjection") v)) = true ->
   estimate_operands v = None) /\
  (get (lit "growthProjection") v = Some (JArr items) ->
   (estimate_operands v = None <->
    nullish (of_option (nth_error items 5)) = true \/
    nullish (of_option (nth_error items 0)) = true)) /\
  estimate_operands (JObj [(lit "growthProjection", JArr (repeat JNull 6))])
    = None /\
  (estimate_operands (encode r) = None <->
   List.length (growthProjection r) < 6) /\
  (estimate_operands (encode r) = None <->
   annualIncrementEstimate r = None) /\
  (forall p0 p5,
     nth_error (growthProjection r) 0 = Some p0 ->
     nth_error (growthProjection r) 5 = Some p5 ->
     estimate_operands (encode r) =
       Some (Val (JNum (projected p5)), Val (JNum (current p0))) /\
     annualIncrementEstimate r =
       Some (Math_round ((projected p5 - current p0) * 2.5)%float)).
Proof.
  repeat match goal with |- _ /\ _ => split end.
  - unfold estimate_operands. intros H.
    destruct v as [ | b | x | str | its | ms]; try reflexivity.
    cbn [get] in H. cbn [read_name bind].
    destruct (lookup (lit "growthProjection") ms) as [[]|];
      try discriminate; reflexivity.
  - intros Hgp. destruct v as [ | b | x | str | its | ms]; try discriminate.
    cbn [get] in Hgp. unfold estimate_operands. cbn [read_name bind].
    rewrite Hgp. cbn [of_option bind read_index].
    destruct (nth_error items 5) as [[ | b5 | x5 | s5 | a5 | m5]|];
      destruct (nth_error items 0) as [[ | b0 | x0 | s0 | a0 | m0]|];
      cbn [of_option read_name bind nullish];
      (split;
       [ intros H; try discriminate; auto
       | intros [H|H]; try discriminate; reflexivity ]).
  - reflexivity.
  - rewrite estimate_operands_encode.
    destruct (nth_error (growthProjection r) 5) as [p5|] eqn:E5.
    + destruct (nth_error (growthProjection r) 0) as [p0|] eqn:E0.
      * split; [discriminate|]. intros H.
        assert (Hn : nth_error (growthProjection r) 5 <> None) by congruence.
        apply nth_error_Some in Hn. lia.
      * apply nth_error_None in E0. split; [intros _; lia | reflexivity].
    + apply nth_error_None in E5. split; [intros _; lia | reflexivity].
  - rewrite estimate_operands_encode. unfold annualIncrementEstimate.
    destruct (nth_error (growthProjection r) 5);
      destruct (nth_error (growthProjection r) 0);
      split; intros H; try reflexivity; discriminate.
  - intros p0 p5 E0 E5. rewrite estimate_operands_encode.
    unfold annualIncrementEstimate. rewrite E5, E0. split; reflexivity.
Qed.

End EstimateDomain.

(** ** The generate button and the example button *)

Section Buttons.

(** X7.  A click on the generate button of an idle component whose textarea
    is not blank issues exactly one call, for the textarea contents and the
    selected language, sets the flag and clears the error.  After any click
    the button is disabled, so a second click changes nothing. *)
Theorem clickGenerate_submits_once (w : World) :
  (generate_disabled (app w) = false ->
   clickGenerate w =
   {| app := {| reviews := reviews (app w); isAnalyzing := true;
                result := result (app w); error := None;
                language := language (app w) |};
      outbound := outbound w
                  ++ [request (language (app w)) (reviews (app w))];
      console := console w |}) /\
  generate_disabled (app (clickGenerate w)) = true /\
  clickGenerate (clickGenerate w) = clickGenerate w.
Proof.
  assert (Hen : generate_disabled (app w) = false ->
    clickGenerate w =
    {| app := {| reviews := reviews (app w); isAnalyzing := true;
                 result := result (app w); error := None;
                 language := language (app w) |};
       outbound := outbound w
                   ++ [request (language (app w)) (reviews (app w))];
       console := console w |}).
  { intros H. unfold clickGenerate. rewrite H.
    unfold generate_disabled in H. apply orb_false_elim in H.
    destruct H as [_ H]. apply negb_false_iff in H.
    now rewrite analyzeReviews_accepted. }
  assert (Hdis : generate_disabled (app (clickGenerate w)) = true).
  { destruct (generate_disabled (app w)) eqn:H.
    - unfold clickGenerate. now rewrite H.
    - rewrite (Hen eq_refl). reflexivity. }
  repeat match goal with |- _ /\ _ => split end.
  - exact Hen.
  - exact Hdis.
  - unfold clickGenerate at 1. now rewrite Hdis.
Qed.

(** X8.  The example button is never ignored: in every state, also while a
    call is in flight, it puts the example text into the textarea and
    issues one call for it with the selected language.  Afterwards the
    strength meter reads Excellent and the generate button is disabled. *)
Theorem clickExample_always_submits (w : World) :
  clickExample w =
  {| app := {| reviews := example; isAnalyzing := true;
               result := result (app w); error := None;
               language := language (app w) |};
     outbound := outbound w ++ [request (language (app w)) example];
     console := console w |} /\
  Scorer.label (Scorer.reviewStrength (reviews (app (clickExample w)))) =
    "Excellent"%string /\
  generate_disabled (app (clickExample w)) = true.
Proof.
  assert (H : clickExample w =
    {| app := {| reviews := example; isAnalyzing := true;
                 result := result (app w); error := None;
                 language := language (app w) |};
       outbound := outbound w ++ [request (language (app w)) example];
       console := console w |}).
  { unfold clickExample. cbv zeta.
    rewrite analyzeReviews_accepted by reflexivity.
    reflexivity. }
  rewrite H. repeat split.
Qed.

End Buttons.

(** ** What each event writes *)

Section Frames.

(** X9.  Each cell has its writers.  The settling of a call touches neither
    the textarea nor the language, and issues no call (there is no retry);
    typing and selecting a language touch nothing but their own cell; a
    paste or a button leaves the result, the language and the console
    alone: the result is only ever written by a response that parses. *)
Theorem event_writes (w : World) (e : Event) :
  let w' := step w e in
  match e with
  | Settle _ =>
      reviews (app w') = reviews (app w) /\
      language (app w') = language (app w) /\
      outbound w' = outbound w /\
      isAnalyzing (app w') = false
  | Change v =>
      w' = {| app := {| reviews := v; isAnalyzing := isAnalyzing (app w);
                        result := result (app w); error := error (app w);
                        language := language (app w) |};
              outbound := outbound w; console := console w |}
  | SelectLanguage v =>
      w' = {| app := {| reviews := reviews (app w);
                        isAnalyzing := isAnalyzing (app w);
                        result := result (app w); error := error (app w);
                        language := v |};
              outbound := outbound w; console := console w |}
  | Paste _ | ClickExample | ClickGenerate =>
      result (app w') = result (app w) /\
      language (app w') = language (app w) /\
      console w' = console w
  end.
Proof.
  cbv zeta. destruct e as [v|v|t| | |o]; cbn [step].
  - reflexivity.
  - reflexivity.
  - unfold handlePaste. destruct (truthy (trim t)); [|repeat split].
    cbv zeta.
    destruct (analyzeReviews_cases (app w) (Some t) (setReviews t w))
      as [-> | [_ ->]]; repeat split.
  - unfold clickExample. cbv zeta.
    destruct (analyzeReviews_cases (app w) (Some example) (setReviews example w))
      as [-> | [_ ->]]; repeat split.
  - unfold clickGenerate. destruct (generate_disabled (app w)); [repeat split|].
    destruct (analyzeReviews_cases (app w) None w) as [-> | [_ ->]];
      repeat split.
  - unfold analyzeReviews_settle. destruct o as [text|reason].
    + destruct (JSON_parse (body_text text)); repeat split.
    + repeat split.
Qed.

Lemma settle_issues_nothing o w :
  exists new : list Request,
    outbound (analyzeReviews_settle o w) = outbound w ++ new /\
    List.length new <= 0 /\ Forall call_is_for_text new.
Proof.
  exists []. rewrite app_nil_r. repeat split; [|simpl; lia | constructor].
  unfold analyzeReviews_settle. destruct o as [text|reason].
  - destruct (JSON_parse (body_text text)); reflexivity.
  - reflexivity.
Qed.

(** One event issues at most one call, and only a submission issues one. *)
Lemma step_outbound w e :
  exists new,
    outbound (step w e) = outbound w ++ new /\
    List.length new <= (if is_submission e then 1 else 0) /\
    Forall call_is_for_text new.
Proof.
  assert (Hsub : forall render arg w0,
    exists new,
      outbound (analyzeReviews render arg w0) = outbound w0 ++ new /\
      List.length new <= 1 /\ Forall call_is_for_text new).
  { intros render arg w0.
    destruct (analyzeReviews_cases render arg w0) as [-> | [Ht ->]].
    - exists []. rewrite app_nil_r. repeat split; [simpl; lia | constructor].
    - exists [request (language render) (finalReviews render arg)].
      repeat split; [simpl; lia|].
      constructor; [|constructor].
      exists (language render), (finalReviews render arg). now split. }
  assert (Hnone : exists new : list Request,
    outbound w = outbound w ++ new /\ List.length new <= 0 /\
    Forall call_is_for_text new).
  { exists []. rewrite app_nil_r. repeat split; [simpl; lia | constructor]. }
  destruct e as [v|v|t| | |o]; cbn [step is_submission].
  - exact Hnone.
  - exact Hnone.
  - unfold handlePaste. destruct (truthy (trim t)).
    + cbv zeta. apply (Hsub (app w) (Some t) (setReviews t w)).
    + destruct Hnone as (new & H1 & H2 & H3). exists new.
      repeat split; [exact H1 | lia | exact H3].
  - unfold clickExample. cbv zeta.
    apply (Hsub (app w) (Some example) (setReviews example w)).
  - unfold clickGenerate. destruct (generate_disabled (app w)).
    + destruct Hnone as (new & H1 & H2 & H3). exists new.
      repeat split; [exact H1 | lia | exact H3].
    + apply Hsub.
  - destruct (settle_issues_nothing o w) as [new H]. exists new. exact H.
Qed.

End Frames.

(** ** The history of calls *)

Section History.

(** X10.  The list of calls only grows: whatever happens, the calls issued
    before are still there, unchanged and in order; at most one call is added
    per paste or button click, none by anything else, and every call added
    is for a text that is not blank. *)
Theorem outbound_append_only (es : list Event) (w : World) :
  exists new,
    outbound (run w es) = outbound w ++ new /\
    List.length new <= List.length (filter is_submission es) /\
    Forall call_is_for_text new.
Proof.
  revert w. induction es as [|e es IH]; intros w.
  - exists []. rewrite app_nil_r. repeat split; [simpl; lia | constructor].
  - cbn [run fold_left].
    destruct (step_outbound w e) as (n1 & E1 & L1 & F1).
    destruct (IH (step w e)) as (n2 & E2 & L2 & F2).
    exists (n1 ++ n2). unfold run in E2.
    repeat split.
    + rewrite E2, E1. now rewrite app_assoc.
    + rewrite length_app. cbn [filter].
      destruct (is_submission e); simpl; lia.
    + apply Forall_app. now split.
Qed.

End History.

(** ** Calls in flight and the analyzing flag *)

Section InFlight.

Lemma issued_le w e : outbound (step w e) = outbound w ++ [] \/
  exists r, outbound (step w e) = outbound w ++ [r].
Proof.
  destruct (step_outbound w e) as (new & E & L & _).
  destruct new as [|r [|r' new]].
  - now left.
  - right. now exists r.
  - simpl in L. destruct (is_submission e); lia.
Qed.

Lemma accounted_step settled m e m' :
  accounted settled m -> machine_step m e = Some m' ->
  accounted (if is_settle e then S settled else settled) m'.
Proof.
  intros [Hlen Hflag] Hstep.
  destruct (is_settle e) eqn:Hs.
  - destruct e as [v|v|t| | |o]; try discriminate. cbn [machine_step] in Hstep.
    destruct (pending m) as [|p] eqn:Hp; [discriminate|].
    injection Hstep as <-. unfold accounted. split; cbn [world pending].
    + destruct (settle_issues_nothing o (world m)) as (new & E & L & _).
      destruct new; [|simpl in L; lia]. rewrite app_nil_r in E.
      cbn [step]. rewrite E. lia.
    + cbn [step]. unfold analyzeReviews_settle.
      destruct o as [text|reason]; [destruct (JSON_parse (body_text text))|];
        discriminate.
  - assert (Hm' : m' = {| world := step (world m) e;
                          pending := pending m + issued (world m) e |}).
    { destruct e; try discriminate; cbn [machine_step] in Hstep;
        now injection Hstep as <-. }
    subst m'. unfold accounted, issued. cbn [world pending].
    destruct (issued_le (world m) e) as [E | [r E]]; rewrite E, length_app;
      cbn [List.length].
    + split; [lia|].
      rewrite app_nil_r in E. intros Ha.
      enough (1 <= pending m) by lia. apply Hflag.
      destruct e as [v|v|t| | |o]; try discriminate; cbn [step] in *.
      * exact Ha.
      * exact Ha.
      * unfold handlePaste in *. destruct (truthy (trim t)); [|exact Ha].
        cbv zeta in *.
        destruct (analyzeReviews_cases (app (world m)) (Some t)
                    (setReviews t (world m))) as [Hw | [_ Hw]];
          rewrite Hw in *; [exact Ha|].
        cbn [outbound setReviews update] in E.
        apply (f_equal (@List.length Request)) in E.
        rewrite length_app in E. simpl in E. lia.
      * unfold clickExample in *. cbv zeta in *.
        destruct (analyzeReviews_cases (app (world m)) (Some example)
                    (setReviews example (world m))) as [Hw | [_ Hw]];
          rewrite Hw in *; [exact Ha|].
        cbn [outbound setReviews update] in E.
        apply (f_equal (@List.length Request)) in E.
        rewrite length_app in E. simpl in E. lia.
      * unfold clickGenerate in *.
        destruct (generate_disabled (app (world m))); [exact Ha|].
        destruct (analyzeReviews_cases (app (world m)) None (world m))
          as [Hw | [_ Hw]]; rewrite Hw in *; [exact Ha|].
        cbn [outbound] in E.
        apply (f_equal (@List.length Request)) in E.
        rewrite length_app in E. simpl in E. lia.
    + split; lia.
Qed.

Lemma accounted_run es : forall settled m m',
  accounted settled m -> machine_run m es = Some m' ->
  accounted (settled + List.length (filter is_settle es)) m'.
Proof.
  induction es as [|e es IH]; intros settled m m' Hm Hrun.
  - cbn in Hrun. injection Hrun as <-. simpl. now rewrite Nat.add_0_r.
  - cbn [machine_run] in Hrun.
    destruct (machine_step m e) as [m1|] eqn:Hstep; [|discriminate].
    pose proof (accounted_step settled m e m1 Hm Hstep) as H1.
    pose proof (IH _ m1 m' H1 Hrun) as H2.
    cbn [filter]. destruct (is_settle e); cbn [List.length] in *.
    + now replace (settled + S (List.length (filter is_settle es)))
        with (S settled + List.length (filter is_settle es)) by lia.
    + exact H2.
Qed.

(** X11.  In every run of the component, each call issued is either still
    in flight or has settled, once; and the analyzing flag is set only while
    at least one call is in flight: the spinner never turns with nothing to
    wait for. *)
Theorem flag_implies_call_in_flight (es : list Event) (m : Machine)
        (Hrun : machine_run start es = Some m) :
  List.length (outbound (world m)) =
    pending m + List.length (filter is_settle es) /\
  (isAnalyzing (app (world m)) = true -> 1 <= pending m).
Proof.
  apply (accounted_run es 0 start m); [|exact Hrun].
  split; [reflexivity | discriminate].
Qed.

(** Two pastes and one response: two calls issued, one still in flight. *)
Lemma flag_implies_call_in_flight_witness :
  let es := [Paste (lit "slow shipping"); Paste (lit "rude support");
             Settle (Fulfilled (Some sample_body))] in
  exists m, machine_run start es = Some m /\
            List.length (outbound (world m)) = 2 /\ pending m = 1.
Proof.
  cbv zeta.
  destruct (machine_run start
              [Paste (lit "slow shipping"); Paste (lit "rude support");
               Settle (Fulfilled (Some sample_body))]) as [m|] eqn:Hrun;
    [|discriminate].
  exists m.
  destruct (flag_implies_call_in_flight _ m Hrun) as [Hlen _].
  injection Hrun as <-.
  repeat split.
Defined.

End InFlight.

(** ** Single flight through the generate button *)

Section ButtonOnly.

Lemma single_flight_step m e m' :
  button_only e = true -> single_flight m ->
  machine_step m e = Some m' -> single_flight m'.
Proof.
  unfold single_flight. intros Hb Hm Hstep.
  destruct e as [v|v|t| | |o]; try discriminate; cbn [machine_step] in Hstep.
  - injection Hstep as <-. cbn [world pending]. unfold issued. cbn.
    rewrite Nat.sub_diag. lia.
  - injection Hstep as <-. cbn [world pending]. unfold issued. cbn.
    rewrite Nat.sub_diag. lia.
  - injection Hstep as <-. cbn [world pending]. unfold issued. cbn [step].
    unfold clickGenerate.
    destruct (generate_disabled (app (world m))) eqn:Hd.
    + rewrite Nat.sub_diag. lia.
    + unfold generate_disabled in Hd. apply orb_false_elim in Hd.
      destruct Hd as [Ha Ht]. apply negb_false_iff in Ht.
      rewrite analyzeReviews_accepted by exact Ht.
      cbn [app isAnalyzing outbound]. rewrite Ha in Hm.
      rewrite length_app. simpl. lia.
  - destruct (pending m) as [|p] eqn:Hp; [discriminate|].
    injection Hstep as <-. cbn [world pending step].
    destruct (isAnalyzing (app (world m))); [|discriminate].
    assert (Hoff : isAnalyzing (app (analyzeReviews_settle o (world m))) = false).
    { unfold analyzeReviews_settle. destruct o as [text|reason];
        [destruct (JSON_parse (body_text text))|]; reflexivity. }
    rewrite Hoff. lia.
Qed.

Lemma single_flight_run es : forall m m',
  forallb button_only es = true -> single_flight m ->
  machine_run m es = Some m' -> single_flight m'.
Proof.
  induction es as [|e es IH]; intros m m' Hb Hm Hrun.
  - cbn in Hrun. now injection Hrun as <-.
  - cbn [forallb] in Hb. apply andb_prop in Hb. destruct Hb as [He Hes].
    cbn [machine_run] in Hrun.
    destruct (machine_step m e) as [m1|] eqn:Hstep; [|discriminate].
    apply (IH m1 m' Hes); [|exact Hrun].
    now apply (single_flight_step m e m1).
Qed.

(** X12.  As long as the user submits with the generate button only (typing
    and selecting a language as they like), at most one call is in flight at
    any time, and the analyzing flag is set exactly while one is. *)
Theorem single_flight_by_button (es : list Event) (m : Machine)
        (Hbutton : forallb button_only es = true)
        (Hrun : machine_run start es = Some m) :
  pending m <= 1 /\
  (isAnalyzing (app (world m)) = true <-> pending m = 1).
Proof.
  assert (H : single_flight m).
  { apply (single_flight_run es start m Hbutton); [reflexivity | exact Hrun]. }
  unfold single_flight in H.
  destruct (isAnalyzing (app (world m))); rewrite H; split; try lia;
    split; intros; try reflexivity; try discriminate; lia.
Qed.

(** Typing, two clicks in a row and a change of language: one call. *)
Lemma single_flight_by_button_witness :
  let es := [Change (lit "slow shipping"); ClickGenerate; ClickGenerate;
             SelectLanguage (lit "French"); ClickGenerate] in
  exists m, machine_run start es = Some m /\ pending m = 1 /\
            List.length (outbound (world m)) = 1.
Proof.
  intros es.
  destruct (machine_run start es) as [m|] eqn:Hrun; [|discriminate].
  exists m.
  destruct (single_flight_by_button es m eq_refl Hrun) as [_ Hiff].
  injection Hrun as <-.
  repeat split.
Defined.

End ButtonOnly.

(** ** Spinner, error banner and results section *)

Section Shown.

Lemma quiet_step w e :
  quiet_while_analyzing w -> quiet_while_analyzing (step w e).
Proof.
  unfold quiet_while_analyzing. intros Hw.
  destruct e as [v|v|t| | |o]; cbn [step].
  - exact Hw.
  - exact Hw.
  - unfold handlePaste. destruct (truthy (trim t)); [|exact Hw]. cbv zeta.
    destruct (analyzeReviews_cases (app w) (Some t) (setReviews t w))
      as [-> | [_ ->]]; [exact Hw | reflexivity].
  - unfold clickExample. cbv zeta.
    destruct (analyzeReviews_cases (app w) (Some example) (setReviews example w))
      as [-> | [_ ->]]; [exact Hw | reflexivity].
  - unfold clickGenerate. destruct (generate_disabled (app w)); [exact Hw|].
    destruct (analyzeReviews_cases (app w) None w) as [-> | [_ ->]];
      [exact Hw | reflexivity].
  - unfold analyzeReviews_settle. destruct o as [text|reason];
      [destruct (JSON_parse (body_text text))|]; discriminate.
Qed.

Lemma quiet_run es : forall w,
  quiet_while_analyzing w -> quiet_while_analyzing (run w es).
Proof.
  induction es as [|e es IH]; intros w Hw; [exact Hw|].
  cbn [run fold_left]. apply IH. now apply quiet_step.
Qed.

(** X13.  In every state the component can reach, the analyzing flag and a
    stored error never coexist: while [isAnalyzing] is true the error is
    [null], and whenever an error is stored it is the generic message and
    the flag is off. *)
Theorem flag_excludes_stored_error (es : list Event) :
  let s := app (run initial es) in
  (isAnalyzing s = true -> error s = None) /\
  (forall message, error s = Some message ->
     message = failure_message /\ isAnalyzing s = false).
Proof.
  cbv zeta.
  pose proof (quiet_run es initial) as Hq.
  unfold quiet_while_analyzing in Hq.
  destruct (invariant_run es initial invariant_initial) as [Herr _].
  unfold error_is_generic in Herr.
  assert (Hquiet : isAnalyzing (app (run initial es)) = true ->
                   error (app (run initial es)) = None).
  { apply Hq. discriminate. }
  split; [exact Hquiet|].
  intros message Hm. split.
  - destruct Herr as [Hn | Hg]; congruence.
  - destruct (isAnalyzing (app (run initial es))); [|reflexivity].
    rewrite Hquiet in Hm by reflexivity. discriminate.
Qed.

(** X14.  A response whose body is JSON for a falsy value ([null], [false],
    [0], the empty string) is taken as a success: when no error was stored
    before, the component ends idle with neither the results section nor
    the error banner on screen. *)
Theorem falsy_body_shows_nothing (w : World) (text : option jsstring)
        (data : json)
        (Hparse : JSON_parse (body_text text) = Some data)
        (Hfalsy : to_boolean data = false)
        (Hclean : error (app w) = None) :
  let s := app (analyzeReviews_settle (Fulfilled text) w) in
  results_shown s = false /\ error_shown s = false /\
  spinner_shown s = false /\ console (analyzeReviews_settle (Fulfilled text) w) = console w.
Proof.
  cbv zeta. rewrite (settle_parsed text data w Hparse).
  unfold results_shown, error_shown, spinner_shown. cbn [app result error isAnalyzing console].
  rewrite Hfalsy, Hclean. repeat split.
Qed.

(** The bodies [null] and [0] after a paste. *)
Lemma falsy_body_shows_nothing_witness :
  let w := run initial [Paste (lit "slow shipping")] in
  let s1 := app (analyzeReviews_settle (Fulfilled (Some (lit "null"))) w) in
  let s2 := app (analyzeReviews_settle (Fulfilled (Some (lit "0"))) w) in
  (results_shown s1 = false /\ error_shown s1 = false) /\
  (results_shown s2 = false /\ error_shown s2 = false).
Proof.
  intros w s1 s2.
  destruct (falsy_body_shows_nothing w (Some (lit "null")) JNull
              eq_refl eq_refl eq_refl) as (H1 & H2 & _).
  destruct (falsy_body_shows_nothing w (Some (lit "0")) (JNum 0)
              eq_refl eq_refl eq_refl) as (H3 & H4 & _).
  split; split; assumption.
Defined.

End Shown.

(** ** The language of a call *)

Section Language.

Lemma prompt_states_language l text :
  occurs_in (lit "(Input Language: " ++ l ++ lit ")") (buildPrompt l text).
Proof.
  exists (lit "Analyze the following customer reviews "),
         (tl prompt_task ++ text ++ prompt_focus ++ prompt_note).
  unfold buildPrompt.
  change prompt_intro
    with (lit "Analyze the following customer reviews " ++ lit "(Input Language: ").
  change prompt_task with (lit ")" ++ tl prompt_task).
  now rewrite <- !app_assoc.
Qed.

(** X15.  The language stated in a prompt is the one selected when the
    submission is made: after the user selects a language, a paste or a
    click on the generate button issues its call with that language, and
    selecting another language afterwards does not touch the call that is
    in flight. *)
Theorem selected_language_reaches_prompt (w : World) (l text : jsstring)
        (Htext : truthy (trim text) = true) :
  let pasted := run w [SelectLanguage l; Paste text] in
  let clicked := run w [Change text; SelectLanguage l; ClickGenerate] in
  outbound pasted = outbound w ++ [request l text] /\
  (isAnalyzing (app w) = false ->
   outbound clicked = outbound w ++ [request l text]) /\
  occurs_in (lit "(Input Language: " ++ l ++ lit ")")
            (contents (request l text)) /\
  (forall l', outbound (step pasted (SelectLanguage l')) = outbound pasted).
Proof.
  cbv zeta. cbn [run fold_left step].
  repeat match goal with |- _ /\ _ => split end.
  - rewrite (handlePaste_accepted text _ Htext). reflexivity.
  - intros Hidle. unfold clickGenerate, generate_disabled.
    cbn [app setLanguage setReviews update isAnalyzing reviews].
    rewrite Hidle, Htext. cbn [negb orb].
    rewrite analyzeReviews_accepted by exact Htext. reflexivity.
  - apply prompt_states_language.
  - intros l'. reflexivity.
Qed.

(** Selecting French and pasting [livraison lente]. *)
Lemma selected_language_reaches_prompt_witness :
  outbound (run initial [SelectLanguage (lit "French");
                         Paste (lit "livraison lente")]) =
  [request (lit "French") (lit "livraison lente")].
Proof.
  destruct (selected_language_reaches_prompt initial (lit "French")
              (lit "livraison lente") eq_refl) as (H & _).
  exact H.
Defined.

End Language.

(** ** Responses that arrive one after the other *)

Section SettleOrder.

(** X16.  Of two responses that settle one after the other, the second
    decides the result, whichever call it answers; and a response that
    parses does not clear an error: when the first of the two fails and the
    second parses, the new result and the error message are both stored. *)
Theorem later_response_wins (w : World) (first : Settled)
        (text : option jsstring) (data : json)
        (Hparse : JSON_parse (body_text text) = Some data) :
  let w' := run w [Settle first; Settle (Fulfilled text)] in
  result (app w') = data /\
  isAnalyzing (app w') = false /\
  (forall e, caught first = Some e ->
     error (app w') = Some failure_message /\
     console w' = console w ++ [e]) /\
  (caught first = None -> error (app w') = error (app w)).
Proof.
  cbv zeta. cbn [run fold_left step].
  rewrite (settle_parsed text data _ Hparse). cbn [app result isAnalyzing error console].
  repeat match goal with |- _ /\ _ => split end; try reflexivity.
  - intros e He. rewrite (settle_caught first e w He). split; reflexivity.
  - intros Hn. destruct first as [t|reason]; [|discriminate].
    unfold caught in Hn.
    destruct (JSON_parse (body_text t)) as [d|] eqn:Hp; [|discriminate].
    rewrite (settle_parsed t d w Hp). reflexivity.
Qed.

(** Two pastes; the first call is rejected, the second one answered. *)
Lemma later_response_wins_witness :
  let w := run initial [Paste (lit "slow shipping");
                        Paste (lit "rude support");
                        Settle (Rejected (CallError (lit "quota")));
                        Settle (Fulfilled (Some sample_body))] in
  result (app w) = encode sample_result /\
  error (app w) = Some failure_message.
Proof.
  cbv zeta.
  destruct (later_response_wins
              (run initial [Paste (lit "slow shipping");
                            Paste (lit "rude support")])
              (Rejected (CallError (lit "quota")))
              (Some sample_body) (encode sample_result) eq_refl)
    as (Hr & _ & He & _).
  destruct (He (CallError (lit "quota")) eq_refl) as [Herr _].
  split; [exact Hr | exact Herr].
Defined.

End SettleOrder.
